(** * Retail analytics dashboard: the data pipeline of [app.py]

    A shallow embedding of the load / clean / filter / aggregate pipeline
    of the dashboard script, and the properties its specification states.

    Modelling conventions.
    - A dataframe is the list of its rows, in row order; a column is the
      list obtained by mapping a field over the rows.
    - An empty CSV cell (pandas' NaN) is [None].  Only the columns whose
      missing cells the script itself acts on are nullable here:
      [Description] (line 44, [dropna]), [CustomerID] (line 127,
      [dropna]; line 315, [groupby] drops NaN keys) and [InvoiceNo]
      ([nunique] skips NaN).
    - The files covered are those with the eight columns of the schema,
      numbers in Quantity and UnitPrice, and a country and a date text in
      every row.  On other files the script stops with an exception that
      is not embedded: lines 41-44 raise KeyError or TypeError, line 83
      raises on a mix of country names and NaN, and an empty date cell
      becomes NaT.  [Country] is therefore a string and every date cell
      a text that parses or not.
    - [Quantity] is an int64 column and is read as [Z]; sums of it wrap
      around as numpy's do.  [UnitPrice] and [TotalPrice] are float64
      columns of currency amounts; they are read as exact rationals
      ([Q]), so rounding is outside the model.
    - [read_csv], [to_datetime], [groupby], [sort_values], [nunique] and
      [value_counts] belong to pandas; each is embedded by its documented
      behaviour at the arguments the script passes.  What [sort_values]
      leaves open, the order among rows of equal measure, is a parameter
      of the tables that are sorted. *)

From Stdlib Require Import Ascii String ZArith QArith Bool List Lia.
From Stdlib Require Import Sorted Permutation.
Import ListNotations.

Open Scope list_scope.

(** ** Data model *)

Record Timestamp := mkTimestamp {
  ts_year : Z; ts_month : Z; ts_day : Z;
  ts_hour : Z; ts_minute : Z; ts_second : Z }.

(** [datetime.date]: what [.dt.date] yields and what the date widget
    returns. *)
Record date := mkDate { d_year : Z; d_month : Z; d_day : Z }.

(** Python orders dates by (year, month, day). *)
Definition date_leb (a b : date) : bool :=
  (d_year a <? d_year b)%Z
  || ((d_year a =? d_year b)%Z
      && ((d_month a <? d_month b)%Z
          || ((d_month a =? d_month b)%Z && (d_day a <=? d_day b)%Z))).

Definition date_max (a b : date) : date := if date_leb a b then b else a.
Definition date_min (a b : date) : date := if date_leb a b then a else b.

(** A cell of the InvoiceDate column as [read_csv] leaves it: text that
    [pd.to_datetime] either parses or rejects.  An empty cell, which
    would become NaT, is not among the files covered. *)
Inductive DateCell :=
| Parses (t : Timestamp)
| Unparseable.

(** One line item of the transactions file; [D] is the type of the
    InvoiceDate column, which line 41 changes from text to timestamps. *)
Record Txn (D : Type) := mkTxn {
  InvoiceNo : option string;
  StockCode : option string;
  Description : option string;
  Quantity : Z;
  InvoiceDate : D;
  UnitPrice : Q;
  CustomerID : option Z;
  Country : string }.

Arguments mkTxn {D}.
Arguments InvoiceNo {D}.
Arguments StockCode {D}.
Arguments Description {D}.
Arguments Quantity {D}.
Arguments InvoiceDate {D}.
Arguments UnitPrice {D}.
Arguments CustomerID {D}.
Arguments Country {D}.

(** A row of the cleaned dataset: the source columns and the four columns
    lines 47-50 add. *)
Record Row := mkRow {
  src :> Txn Timestamp;
  TotalPrice : Q;
  YearMonth : string;
  Date : date;
  Hour : Z }.

Definition DataFrame := list Row.

(** ** Errors *)

Inductive Exception :=
| FileNotFoundError (path : string)
| ParserError (path : string)
| DateParseError.

Inductive result (A : Type) :=
| Ok (a : A)
| Raise (e : Exception).

Arguments Ok {A}.
Arguments Raise {A}.

Definition bind {A B} (m : result A) (k : A -> result B) : result B :=
  match m with
  | Ok a => k a
  | Raise e => Raise e
  end.

Notation "x <- m ;; k" := (bind m (fun x => k))
  (at level 61, m at next level, right associativity).

(** [try: a except: b] with a bare [except]: every exception of [a] is
    caught and dropped, and [b] runs instead. *)
Definition try_except {A} (a b : result A) : result A :=
  match a with
  | Ok x => Ok x
  | Raise _ => b
  end.

(** ** The file system and [read_csv] *)

Inductive FileState :=
| Missing
| Malformed
| Csv (rows : list (Txn DateCell)).

Definition FileSystem := string -> FileState.

Definition read_csv (fs : FileSystem) (path : string)
  : result (list (Txn DateCell)) :=
  match fs path with
  | Missing => Raise (FileNotFoundError path)
  | Malformed => Raise (ParserError path)
  | Csv rows => Ok rows
  end.

(** ** [load_data] (lines 33-52) *)

(** Line 41: the whole column is converted, and one cell that does not
    parse raises. *)
Definition set_InvoiceDate {D E} (r : Txn D) (t : E) : Txn E :=
  mkTxn (InvoiceNo r) (StockCode r) (Description r) (Quantity r) t
        (UnitPrice r) (CustomerID r) (Country r).

Fixpoint to_datetime (df : list (Txn DateCell))
  : result (list (Txn Timestamp)) :=
  match df with
  | [] => Ok []
  | r :: rest =>
      match InvoiceDate r with
      | Unparseable => Raise DateParseError
      | Parses t =>
          rest' <- to_datetime rest ;;
          Ok (set_InvoiceDate r t :: rest')
      end
  end.

Definition Qpos (q : Q) : bool := negb (Qle_bool q 0).

Definition notna {A} (c : option A) : bool :=
  match c with Some _ => true | None => false end.

(** Decimal digits, for the text of a monthly period. *)
Definition digit (n : Z) : ascii := ascii_of_nat (48 + Z.to_nat (n mod 10)).

Definition pad2 (n : Z) : string :=
  String (digit (n / 10)) (String (digit n) EmptyString).

Definition pad4 (n : Z) : string :=
  String (digit (n / 1000)) (String (digit (n / 100)) (pad2 n)).

(** [dt.to_period('M').astype(str)], e.g. 2011-03. *)
Definition period_M_str (t : Timestamp) : string :=
  (pad4 (ts_year t) ++ "-" ++ pad2 (ts_month t))%string.

Definition dt_date (t : Timestamp) : date :=
  mkDate (ts_year t) (ts_month t) (ts_day t).

(** Lines 47-50. *)
Definition add_columns (r : Txn Timestamp) : Row :=
  mkRow r
        (inject_Z (Quantity r) * UnitPrice r)%Q
        (period_M_str (InvoiceDate r))
        (dt_date (InvoiceDate r))
        (ts_hour (InvoiceDate r)).

(** Lines 41-50, once a file has been read, for a file with the columns
    and the numeric columns of the schema: the one failure left is a
    date that does not parse. *)
Definition clean (raw : list (Txn DateCell)) : result DataFrame :=
  df <- to_datetime raw ;;
  let df := filter (fun r => (0 <? Quantity r)%Z) df in
  let df := filter (fun r => Qpos (UnitPrice r)) df in
  let df := filter (fun r => notna (Description r)) df in
  Ok (map add_columns df).

Definition load_data (fs : FileSystem) : result DataFrame :=
  raw <- try_except (read_csv fs "data/data.csv")
                    (read_csv fs "data/online_retail.csv") ;;
  clean raw.

(** ** The filter block (lines 94-103) *)

(** [Series.isin(values)]. *)
Definition isin (c : string) (values : list string) : bool :=
  existsb (String.eqb c) values.

(** The filtered view as a function of the cleaned dataset and the two
    widget values.  [date_range] is the tuple the date widget returns
    (zero, one or two dates); [selected_countries] is the list the
    multiselect returns. *)
Definition filtered_df (df : DataFrame) (date_range : list date)
           (selected_countries : list string) : DataFrame :=
  let filtered_df := df in
  let filtered_df :=
    match date_range with
    | [d0; d1] =>
        filter (fun r => date_leb d0 (Date r) && date_leb (Date r) d1)
               filtered_df
    | _ => filtered_df
    end in
  let filtered_df :=
    match selected_countries with
    | [] => filtered_df
    | _ :: _ => filter (fun r : Row => isin (Country r) selected_countries)
                       filtered_df
    end in
  filtered_df.

(** *** The same block over an object store

    Python variables hold references.  The store below keeps every
    dataframe object ever created; [df.copy()] and boolean indexing
    [frame[mask]] each create a new object, and an assignment rebinds a
    name.  Nothing in the block writes into an existing object. *)
Module Store.

Definition loc := nat.
Definition heap := list DataFrame.
Definition M (A : Type) := heap -> A * heap.

Definition ret {A} (a : A) : M A := fun h => (a, h).

Definition bind {A B} (m : M A) (k : A -> M B) : M B :=
  fun h => let (a, h') := m h in k a h'.

Notation "x <~ m ;; k" := (bind m (fun x => k))
  (at level 61, m at next level, right associativity).

Definition deref (l : loc) : M DataFrame :=
  fun h => (nth l h [], h).

Definition alloc (d : DataFrame) : M loc :=
  fun h => (length h, h ++ [d]).

(** [frame.copy()] *)
Definition copy (l : loc) : M loc :=
  d <~ deref l ;; alloc d.

(** [frame[mask]] *)
Definition getitem (l : loc) (mask : Row -> bool) : M loc :=
  d <~ deref l ;; alloc (filter mask d).

(** Lines 94-103; the result is the object the name [filtered_df] is
    bound to at line 104. *)
Definition apply_filters (df : loc) (date_range : list date)
           (selected_countries : list string) : M loc :=
  filtered_df <~ copy df ;;
  filtered_df <~
    match date_range with
    | [d0; d1] =>
        getitem filtered_df
                (fun r => date_leb d0 (Date r) && date_leb (Date r) d1)
    | _ => ret filtered_df
    end ;;
  filtered_df <~
    match selected_countries with
    | [] => ret filtered_df
    | _ :: _ =>
        getitem filtered_df
                (fun r : Row => isin (Country r) selected_countries)
    end ;;
  ret filtered_df.

End Store.

(** ** pandas reductions *)

(** [Series.dropna()] *)
Fixpoint dropna {A} (col : list (option A)) : list A :=
  match col with
  | [] => []
  | Some a :: rest => a :: dropna rest
  | None :: rest => dropna rest
  end.

(** [Series.unique()]: the distinct values in order of first appearance. *)
Fixpoint unique {A} (eqb : A -> A -> bool) (col : list A) : list A :=
  match col with
  | [] => []
  | a :: rest => a :: filter (fun b => negb (eqb a b)) (unique eqb rest)
  end.

(** [Series.nunique()]: missing values are not counted. *)
Definition nunique {A} (eqb : A -> A -> bool) (col : list (option A)) : nat :=
  length (unique eqb (dropna col)).

(** Sum of a float64 column, read over [Q]: exact where the program's
    sum is rounded.  The theorems relate a sum to the column it is taken
    over and to zero, never two sums to each other. *)
Definition Qsum (col : list Q) : Q := fold_left Qplus col 0%Q.

(** int64 arithmetic wraps around. *)
Definition wrap64 (z : Z) : Z :=
  ((z + 2 ^ 63) mod 2 ^ 64 - 2 ^ 63)%Z.

Definition int64_sum (col : list Z) : Z :=
  fold_left (fun acc q => wrap64 (acc + q)) col 0%Z.

(** ** [groupby] *)

Section GroupBy.
Context {K : Type} (keqb kleb : K -> K -> bool).

(** Insertion into an ascending list without repetition. *)
Fixpoint insert_key (k : K) (ks : list K) : list K :=
  match ks with
  | [] => [k]
  | k' :: rest =>
      if keqb k k' then ks
      else if kleb k k' then k :: ks
      else k' :: insert_key k rest
  end.

(** The group keys: the distinct non-missing values, ascending
    ([sort=True], [dropna=True] are the defaults). *)
Definition group_keys (col : list (option K)) : list K :=
  fold_right insert_key [] (dropna col).

Definition has_key (k : K) (c : option K) : bool :=
  match c with
  | Some k' => keqb k k'
  | None => false
  end.

(** [frame.groupby(key)]: each key with the rows of its group, in the
    order of the frame. *)
Definition groupby {R} (key : R -> option K) (df : list R)
  : list (K * list R) :=
  map (fun k => (k, filter (fun r => has_key k (key r)) df))
      (group_keys (map key df)).

(** [Series.sort_index()] / insertion by ascending key of a table whose
    first column is the index. *)
Fixpoint insert_row {V} (x : K * V) (t : list (K * V)) : list (K * V) :=
  match t with
  | [] => [x]
  | y :: rest =>
      if kleb (fst x) (fst y) then x :: t else y :: insert_row x rest
  end.

Definition sort_index {V} (t : list (K * V)) : list (K * V) :=
  fold_right insert_row [] t.

End GroupBy.

(** ** [sort_values(by, ascending=False)]

    pandas sorts with its default kind, quicksort, which is not a
    stable sort: where two rows have the same measure, their order
    depends on the library and on the machine, and the script does not
    fix it.  [first] stands for that choice: [first x y] tells whether,
    of two rows of equal measure, [x] is placed before [y].  Whatever
    [first] is, the result is a rearrangement of the table in descending
    order of the measure. *)
Section SortValues.
Context {R M : Type} (measure : R -> M) (mleb : M -> M -> bool).
Variable first : R -> R -> bool.

(** [x] is placed before [y]: its measure is larger, or equal with
    [first] deciding. *)
Definition before (x y : R) : bool :=
  if mleb (measure y) (measure x)
  then (if mleb (measure x) (measure y) then first x y else true)
  else false.

Fixpoint insert_desc (x : R) (t : list R) : list R :=
  match t with
  | [] => [x]
  | y :: rest =>
      if before x y then x :: t
      else y :: insert_desc x rest
  end.

Definition sort_values_desc (t : list R) : list R :=
  fold_right insert_desc [] t.

End SortValues.

(** The choice of the sort among the groups of a table, given by their
    keys. *)
Definition TieOrder := string -> string -> bool.

Definition by_key {V} (ties : TieOrder) (x y : string * V) : bool :=
  ties (fst x) (fst y).

(** Two choices: equal measures in ascending key order, and in
    descending key order. *)
Definition key_order : TieOrder := fun a b => String.leb a b.
Definition later_first : TieOrder := fun a b => String.leb b a.

(** [DataFrame.head(n)] *)
Definition head {A} (n : nat) (t : list A) : list A := firstn n t.

(** [Series.value_counts()]: each distinct value with its number of
    occurrences, most frequent first.  Line 318 sorts the result by
    index at once, so the order it leaves among equal counts plays no
    part; the first seen is taken first. *)
Definition count_of (v : nat) (col : list nat) : nat :=
  length (filter (Nat.eqb v) col).

Definition value_counts (col : list nat) : list (nat * nat) :=
  sort_values_desc snd Nat.leb (fun _ _ => true)
    (map (fun v => (v, count_of v col)) (unique Nat.eqb col)).

(** ** KPIs (lines 125-128) *)

Definition total_revenue (view : DataFrame) : Q :=
  Qsum (map TotalPrice view).

Definition total_orders (view : DataFrame) : nat :=
  nunique String.eqb (map (fun r : Row => InvoiceNo r) view).

Definition total_customers (view : DataFrame) : nat :=
  nunique Z.eqb (map (fun r : Row => CustomerID r) view).

Definition avg_order_value (view : DataFrame) : Q :=
  if (0 <? total_orders view)%nat
  then (total_revenue view / inject_Z (Z.of_nat (total_orders view)))%Q
  else 0%Q.

(** ** Aggregate tables (lines 147-320)

    A table with an index column and one value column is a list of pairs;
    the country table pairs each country with (Revenue, Orders). *)

Definition by_YearMonth (view : DataFrame) : list (string * DataFrame) :=
  groupby String.eqb String.leb (fun r : Row => Some (YearMonth r)) view.

Definition by_Country (view : DataFrame) : list (string * DataFrame) :=
  groupby String.eqb String.leb (fun r : Row => Some (Country r)) view.

Definition by_Description (view : DataFrame) : list (string * DataFrame) :=
  groupby String.eqb String.leb (fun r : Row => Description r) view.

Definition by_Hour (view : DataFrame) : list (Z * DataFrame) :=
  groupby Z.eqb Z.leb (fun r : Row => Some (Hour r)) view.

Definition by_CustomerID (view : DataFrame) : list (Z * DataFrame) :=
  groupby Z.eqb Z.leb (fun r : Row => CustomerID r) view.

(** Applying a reduction to every group. *)
Definition agg {K V} (f : DataFrame -> V) (groups : list (K * DataFrame))
  : list (K * V) :=
  map (fun g => (fst g, f (snd g))) groups.

Definition orders_of (g : DataFrame) : nat :=
  nunique String.eqb (map (fun r : Row => InvoiceNo r) g).

Definition monthly_revenue (view : DataFrame) : list (string * Q) :=
  agg (fun g => Qsum (map TotalPrice g)) (by_YearMonth view).

Definition monthly_orders (view : DataFrame) : list (string * nat) :=
  agg orders_of (by_YearMonth view).

Definition Revenue (row : string * (Q * nat)) : Q := fst (snd row).
Definition Orders (row : string * (Q * nat)) : nat := snd (snd row).

Definition country_stats (ties : TieOrder) (view : DataFrame)
  : list (string * (Q * nat)) :=
  let country_stats :=
    agg (fun g => (Qsum (map TotalPrice g), orders_of g)) (by_Country view) in
  head 10 (sort_values_desc Revenue Qle_bool (by_key ties) country_stats).

Definition top5 (ties : TieOrder) (view : DataFrame)
  : list (string * (Q * nat)) :=
  head 5 (country_stats ties view).

Definition top_products_qty (ties : TieOrder) (view : DataFrame)
  : list (string * Z) :=
  let top_products_qty :=
    agg (fun g => int64_sum (map (fun r : Row => Quantity r) g))
        (by_Description view) in
  head 10 (sort_values_desc snd Z.leb (by_key ties) top_products_qty).

Definition top_products_rev (ties : TieOrder) (view : DataFrame)
  : list (string * Q) :=
  let top_products_rev :=
    agg (fun g => Qsum (map TotalPrice g)) (by_Description view) in
  head 10 (sort_values_desc snd Qle_bool (by_key ties) top_products_rev).

Definition hourly (view : DataFrame) : list (Z * nat) :=
  agg orders_of (by_Hour view).

Definition customer_orders (view : DataFrame) : list (Z * nat) :=
  agg orders_of (by_CustomerID view).

Definition order_distribution (view : DataFrame) : list (nat * nat) :=
  let order_distribution :=
    sort_index Nat.leb (value_counts (map snd (customer_orders view))) in
  filter (fun row => (fst row <=? 20)%nat) order_distribution.

(** ** Widgets and sidebar (lines 72-91 and 105-113) *)

(** [Series.min()] and [Series.max()] of the Date column; pandas gives
    NaN for an empty column, here [None]. *)
Definition Series_min (col : list date) : option date :=
  match col with
  | [] => None
  | d :: rest => Some (fold_left date_min rest d)
  end.

Definition Series_max (col : list date) : option date :=
  match col with
  | [] => None
  | d :: rest => Some (fold_left date_max rest d)
  end.

Definition min_date (df : DataFrame) : option date := Series_min (map Date df).
Definition max_date (df : DataFrame) : option date := Series_max (map Date df).

(** Python's [sorted] on a list of strings (a stable ascending sort). *)
Fixpoint insort (x : string) (l : list string) : list string :=
  match l with
  | [] => [x]
  | y :: rest => if String.leb x y then x :: l else y :: insort x rest
  end.

Definition sorted (l : list string) : list string := fold_right insort [] l.

(** Line 83. *)
Definition all_countries (df : DataFrame) : list string :=
  sorted (unique String.eqb (map (fun r : Row => Country r) df)).

(** Lines 84-85. *)
Definition default_countries (all_countries : list string) : list string :=
  let default_countries := ["United Kingdom"; "France"; "Germany"]%string in
  filter (fun c => isin c all_countries) default_countries.

(** Line 90: the [default] argument of the multiselect. *)
Definition multiselect_default (df : DataFrame) : list string :=
  match default_countries (all_countries df) with
  | [] => firstn 3 (all_countries df)
  | _ :: _ => default_countries (all_countries df)
  end.

(** Lines 108-113: Records, Countries, Products, Orders. *)
Record SidebarInfo := mkSidebarInfo {
  Records : nat; Countries : nat; Products : nat; SidebarOrders : nat }.

Definition sidebar_info (filtered_df : DataFrame) : SidebarInfo :=
  mkSidebarInfo
    (length filtered_df)
    (nunique String.eqb (map (fun r : Row => Some (Country r)) filtered_df))
    (nunique String.eqb (map (fun r : Row => Description r) filtered_df))
    (nunique String.eqb (map (fun r : Row => InvoiceNo r) filtered_df)).

(** ** The script as a whole

    One run of the script for one state of the widgets.  [date_range]
    and [selected_countries] are what the two widgets return: on the
    first run their initial values, (min_date, max_date) and
    [multiselect_default], afterwards what the user picked among the
    dates from min_date to max_date and among [all_countries].
    [ties] is the choice the library's sort makes among groups of equal
    measure.  [st.stop()] ends the run. *)

Record Dashboard := mkDashboard {
  kpi_total_revenue : Q;
  kpi_total_orders : nat;
  kpi_total_customers : nat;
  kpi_avg_order_value : Q;
  tbl_monthly_revenue : list (string * Q);
  tbl_monthly_orders : list (string * nat);
  tbl_country_stats : list (string * (Q * nat));
  tbl_top5 : list (string * (Q * nat));
  tbl_top_products_qty : list (string * Z);
  tbl_top_products_rev : list (string * Q);
  tbl_hourly : list (Z * nat);
  tbl_order_distribution : list (nat * nat) }.

Inductive Outcome :=
| LoadFailed (e : Exception)   (* lines 58-61: st.error, st.info, st.stop *)
| WidgetFailed                 (* line 75: date_input raises, uncaught *)
| NoData                       (* lines 116-118: st.warning, st.stop *)
| Rendered (d : Dashboard).

Definition render (ties : TieOrder) (view : DataFrame) : Dashboard :=
  mkDashboard (total_revenue view) (total_orders view)
              (total_customers view) (avg_order_value view)
              (monthly_revenue view) (monthly_orders view)
              (country_stats ties view) (top5 ties view)
              (top_products_qty ties view) (top_products_rev ties view)
              (hourly view) (order_distribution view).

(** Lines 55-118 and on.  With a dataset that cleaning has left without
    rows, min_date and max_date are NaN and the date widget of line 75
    raises; nothing catches it.  Lines 83-91 compute the options and the
    default of the country widget and cannot fail on a dataset in which
    every row has a country. *)
Definition app (ties : TieOrder) (fs : FileSystem) (date_range : list date)
           (selected_countries : list string) : Outcome :=
  match load_data fs with
  | Raise e => LoadFailed e
  | Ok df =>
      match min_date df, max_date df with
      | Some _, Some _ =>
          let filtered_df := filtered_df df date_range selected_countries in
          if (length filtered_df =? 0)%nat then NoData
          else Rendered (render ties filtered_df)
      | _, _ => WidgetFailed
      end
  end.

(** ** The specification's running example (section 8) *)

Definition at_noon (y m d : Z) : Timestamp := mkTimestamp y m d 12 0 0.

Definition example_rows : list (Txn DateCell) :=
  [ mkTxn (Some "1") (Some "A") (Some "mug") 5
          (Parses (at_noon 2011 1 5)) 2 (Some 100%Z) "UK";
    mkTxn (Some "2") (Some "B") (Some "cup") (-1)
          (Parses (at_noon 2011 1 6)) 3 (Some 100%Z) "UK";
    mkTxn (Some "3") (Some "C") (Some "jar") 2
          (Parses (at_noon 2011 2 1)) 4 None "FR" ]%string.

Definition example_fs : FileSystem :=
  fun path => if String.eqb path "data/data.csv" then Csv example_rows
              else Missing.

Definition january : list date := [mkDate 2011 1 1; mkDate 2011 1 31].

(** ** Laws of the orders used for keys and measures *)

(** A decidable total order on group keys. *)
Class KeyOrder {K : Type} (keqb kleb : K -> K -> bool) : Prop := {
  keqb_eq : forall a b, keqb a b = true <-> a = b;
  kleb_total : forall a b, kleb a b = true \/ kleb b a = true;
  kleb_trans : forall a b c,
      kleb a b = true -> kleb b c = true -> kleb a c = true;
  kleb_antisym : forall a b, kleb a b = true -> kleb b a = true -> a = b }.

(** A total preorder on measures. *)
Class MeasureOrder {M : Type} (mleb : M -> M -> bool) : Prop := {
  mleb_total : forall a b, mleb a b = true \/ mleb b a = true;
  mleb_trans : forall a b c,
      mleb a b = true -> mleb b c = true -> mleb a c = true }.

(** [a] strictly before [b]. *)
Definition strictly {K} (kleb : K -> K -> bool) (a b : K) : Prop :=
  kleb b a = false.

(** [a] at least [b], for descending tables. *)
Definition at_least {M} (mleb : M -> M -> bool) (a b : M) : Prop :=
  mleb b a = true.

(** Row [a] may come before row [b] in a table sorted by descending
    measure. *)
Definition descending {R M} (measure : R -> M) (mleb : M -> M -> bool)
           (a b : R) : Prop :=
  at_least mleb (measure a) (measure b).

(** ** Vocabulary of the specification *)

(** The invariant of the cleaned dataset (specification, section 3). *)
Definition cleaned_row (r : Row) : Prop :=
  (0 < Quantity r)%Z /\ (0 < UnitPrice r)%Q /\ Description r <> None /\
  TotalPrice r = (inject_Z (Quantity r) * UnitPrice r)%Q.

(** Calendar order on dates. *)
Definition date_le (a b : date) : Prop :=
  (d_year a < d_year b)%Z \/
  (d_year a = d_year b /\
   ((d_month a < d_month b)%Z \/
    (d_month a = d_month b /\ (d_day a <= d_day b)%Z))).

(** The one-pass reading of the filter: the conjunction of the date
    predicate and the country predicate of a selection. *)
Definition date_ok (date_range : list date) (d : date) : bool :=
  match date_range with
  | [start; stop] => date_leb start d && date_leb d stop
  | _ => true
  end.

Definition country_ok (selected_countries : list string) (c : string) : bool :=
  match selected_countries with
  | [] => true
  | _ :: _ => isin c selected_countries
  end.

Definition keeps (date_range : list date) (selected_countries : list string)
           (r : Row) : bool :=
  date_ok date_range (Date r) && country_ok selected_countries (Country r).

(** Intersection of two selections, each read as the set of rows it
    lets through: an interval that is not a pair, and an empty country
    list, restrict nothing. *)
Definition inter_range (r1 r2 : list date) : list date :=
  match r1, r2 with
  | [s1; e1], [s2; e2] => [date_max s1 s2; date_min e1 e2]
  | [_; _], _ => r1
  | _, _ => r2
  end.

Definition inter_countries (c1 c2 : list string) : list string :=
  match c1, c2 with
  | [], _ => c2
  | _, [] => c1
  | _, _ => filter (fun c => isin c c2) c1
  end.

(** Two country selections are compatible when some selection stands for
    their conjunction: they are not two non-empty lists without a common
    country (the empty list would then mean no restriction). *)
Definition compatible (c1 c2 : list string) : bool :=
  match c1, c2 with
  | [], _ => true
  | _, [] => true
  | _, _ => negb (length (filter (fun c => isin c c2) c1) =? 0)%nat
  end.

Definition example_df : DataFrame :=
  [ add_columns (mkTxn (Some "1") (Some "A") (Some "mug") 5
                       (at_noon 2011 1 5) 2 (Some 100%Z) "UK");
    add_columns (mkTxn (Some "3") (Some "C") (Some "jar") 2
                       (at_noon 2011 2 1) 4 None "FR") ]%string.

(** The load-error taxonomy of the specification (section 7): the source
    is not found when no candidate path exists. *)
Definition source_not_found (fs : FileSystem) : Prop :=
  fs "data/data.csv"%string = Missing /\
  fs "data/online_retail.csv"%string = Missing.

Definition reports_not_found (e : Exception) : Prop :=
  exists path, e = FileNotFoundError path.

(** Two file systems: the first candidate unreadable and the second
    absent; and no candidate at all. *)
Definition fs_malformed_then_missing : FileSystem :=
  fun path => if String.eqb path "data/data.csv" then Malformed else Missing.

Definition fs_nothing : FileSystem := fun _ => Missing.

(** A first candidate that reads but holds a date that does not parse,
    next to a sound second candidate. *)
Definition fs_bad_date_then_good : FileSystem :=
  fun path =>
    if String.eqb path "data/data.csv"
    then Csv [mkTxn (Some "9"%string) None (Some "pot"%string) 1
                    Unparseable 1 None "UK"%string]
    else if String.eqb path "data/online_retail.csv" then Csv example_rows
    else Missing.

(** Two countries with the same revenue. *)
Definition tie_view : DataFrame :=
  [ add_columns (mkTxn (Some "1") (Some "A") (Some "mug") 5
                       (at_noon 2011 1 5) 2 (Some 100%Z) "UK");
    add_columns (mkTxn (Some "2") (Some "B") (Some "jar") 2
                       (at_noon 2011 1 6) 5 (Some 101%Z) "FR") ]%string.

(** Four countries, two pairs with the same revenue. *)
Definition two_ties_view : DataFrame :=
  [ add_columns (mkTxn (Some "1") None (Some "a") 1
                       (at_noon 2011 1 5) 1 None "AA");
    add_columns (mkTxn (Some "2") None (Some "b") 1
                       (at_noon 2011 1 5) 1 None "BB");
    add_columns (mkTxn (Some "3") None (Some "c") 3
                       (at_noon 2011 1 5) 1 None "CC");
    add_columns (mkTxn (Some "4") None (Some "d") 3
                       (at_noon 2011 1 5) 1 None "DD") ]%string.

(** The order the specification asks among the groups of equal measure:
    that of their keys. *)
Definition ties_by_key {V} (same : string * V -> string * V -> Prop)
           (t : list (string * V)) : Prop :=
  StronglySorted (fun a b => same a b -> String.ltb (fst a) (fst b) = true) t.

(** [n] is the number of distinct InvoiceNo values among the rows of
    [view] that satisfy [P]: the length of a list holding each of them
    once. *)
Definition distinct_invoices (view : DataFrame) (P : Row -> Prop) (n : nat)
  : Prop :=
  exists invoices : list string,
    NoDup invoices /\
    (forall i, In i invoices <->
               exists r : Row, In r view /\ P r /\ InvoiceNo r = Some i) /\
    n = length invoices.

(** An invoice of two lines and one of one line for customer 100, one
    invoice for customer 101, one without customer. *)
Definition invoices_view : DataFrame :=
  [ add_columns (mkTxn (Some "1") (Some "A") (Some "mug") 1
                       (at_noon 2011 1 5) 1 (Some 100%Z) "UK");
    add_columns (mkTxn (Some "1") (Some "B") (Some "cup") 1
                       (at_noon 2011 1 5) 1 (Some 100%Z) "UK");
    add_columns (mkTxn (Some "2") (Some "A") (Some "mug") 1
                       (at_noon 2011 1 6) 1 (Some 100%Z) "UK");
    add_columns (mkTxn (Some "3") (Some "C") (Some "jar") 1
                       (at_noon 2011 2 1) 1 (Some 101%Z) "FR");
    add_columns (mkTxn (Some "4") (Some "C") (Some "jar") 1
                       (at_noon 2011 2 2) 1 None "FR") ]%string.

(** What the two widgets can return for a dataset: at most two dates
    between min_date and max_date, and countries among the options. *)
Definition enterable (df : DataFrame) (date_range : list date)
           (selected_countries : list string) : bool :=
  match min_date df, max_date df with
  | Some lo, Some hi =>
      (length date_range <=? 2)%nat
      && forallb (fun d => date_leb lo d && date_leb d hi) date_range
      && forallb (fun c => isin c (all_countries df)) selected_countries
  | _, _ => false
  end.

(** A range inside the dates of the example, without its last day. *)
Definition first_weeks : list date := [mkDate 2011 1 5; mkDate 2011 1 31].

(** A file of returns only: cleaning drops every row. *)
Definition fs_returns_only : FileSystem :=
  fun path =>
    if String.eqb path "data/data.csv"
    then Csv [mkTxn (Some "C1"%string) None (Some "mug"%string) (-1)
                    (Parses (at_noon 2011 1 5)) 2 None "UK"%string]
    else Missing.

(** The state after some statements of the block: the store has only
    grown, and the current object is a new one holding [d]. *)
Definition fresh_result (h : Store.heap) (d : DataFrame)
           (r : Store.loc * Store.heap) : Prop :=
  (exists new, snd r = h ++ new) /\
  (length h <= fst r)%nat /\
  nth (fst r) (snd r) [] = d.

(** The country table before [head(10)] (lines 195-199). *)
Definition country_table (view : DataFrame) : list (string * (Q * nat)) :=
  agg (fun g => (Qsum (map TotalPrice g), orders_of g)) (by_Country view).

(** Exact sum, for stating totals. *)
Definition Qtotal (col : list Q) : Q := fold_right Qplus 0 col.

(** A timestamp whose year has four digits and whose month has two, as
    every pandas timestamp has. *)
Definition four_digit_year (t : Timestamp) : Prop :=
  (0 <= ts_year t < 10000)%Z /\ (0 <= ts_month t < 100)%Z.

(** Calendar order on (year, month). *)
Definition month_compare (a b : Timestamp) : comparison :=
  match (ts_year a ?= ts_year b)%Z with
  | Eq => (ts_month a ?= ts_month b)%Z
  | c => c
  end.

(** * Properties *)

(** ** The orders *)

Lemma ascii_compare_refl (a : ascii) : Ascii.compare a a = Eq.
Proof. unfold Ascii.compare. apply N.compare_refl. Qed.

Lemma ascii_compare_lt_trans (a b c : ascii) :
  Ascii.compare a b = Lt -> Ascii.compare b c = Lt -> Ascii.compare a c = Lt.
Proof.
  unfold Ascii.compare. rewrite !N.compare_lt_iff. apply N.lt_trans.
Qed.

Lemma string_compare_lt_trans (a b c : string) :
  String.compare a b = Lt -> String.compare b c = Lt ->
  String.compare a c = Lt.
Proof.
  revert b c. induction a as [|x a IH]; intros [|y b] [|z c]; simpl;
    try congruence.
  destruct (Ascii.compare x y) eqn:Hxy; try discriminate;
    destruct (Ascii.compare y z) eqn:Hyz; try discriminate; intros H1 H2.
  - apply Ascii.compare_eq_iff in Hxy, Hyz. subst.
    rewrite ascii_compare_refl. eauto.
  - apply Ascii.compare_eq_iff in Hxy. subst. now rewrite Hyz.
  - apply Ascii.compare_eq_iff in Hyz. subst. now rewrite Hxy.
  - now rewrite (ascii_compare_lt_trans _ _ _ Hxy Hyz).
Qed.

Lemma string_leb_lt (a b : string) :
  String.leb a b = true <-> a = b \/ String.compare a b = Lt.
Proof.
  unfold String.leb. destruct (String.compare a b) eqn:H; split;
    try tauto; try congruence.
  - intros _. left. now apply String.compare_eq_iff.
  - intros [->|]; try discriminate.
    assert (E : String.compare b b = Eq).
    { clear H. induction b; simpl; auto. now rewrite ascii_compare_refl. }
    congruence.
Qed.

#[export] Instance string_KeyOrder : KeyOrder String.eqb String.leb.
Proof.
  split.
  - apply String.eqb_eq.
  - apply String.leb_total.
  - intros a b c. rewrite !string_leb_lt.
    intros [->|H1] [->|H2]; auto.
    right. eapply string_compare_lt_trans; eauto.
  - apply String.leb_antisym.
Qed.

#[export] Instance Z_KeyOrder : KeyOrder Z.eqb Z.leb.
Proof.
  split; intros *; rewrite ?Z.eqb_eq, ?Z.leb_le; lia.
Qed.

#[export] Instance nat_KeyOrder : KeyOrder Nat.eqb Nat.leb.
Proof.
  split; intros *; rewrite ?Nat.eqb_eq, ?Nat.leb_le; lia.
Qed.

#[export] Instance Z_MeasureOrder : MeasureOrder Z.leb.
Proof. split; intros *; rewrite ?Z.leb_le; lia. Qed.

#[export] Instance nat_MeasureOrder : MeasureOrder Nat.leb.
Proof. split; intros *; rewrite ?Nat.leb_le; lia. Qed.

#[export] Instance Q_MeasureOrder : MeasureOrder Qle_bool.
Proof.
  split; intros *; rewrite ?Qle_bool_iff.
  - destruct (Qlt_le_dec a b) as [H|H]; auto using Qlt_le_weak.
  - apply Qle_trans.
Qed.

Lemma strictly_string (a b : string) :
  strictly String.leb a b <-> String.ltb a b = true.
Proof.
  unfold strictly, String.leb, String.ltb.
  rewrite (String.compare_antisym a b).
  destruct (String.compare b a); simpl; split; congruence.
Qed.

Lemma strictly_Z (a b : Z) : strictly Z.leb a b <-> (a < b)%Z.
Proof. unfold strictly. rewrite Z.leb_gt. tauto. Qed.

Lemma strictly_nat (a b : nat) : strictly Nat.leb a b <-> (a < b)%nat.
Proof. unfold strictly. rewrite Nat.leb_gt. tauto. Qed.

Lemma Qpos_iff (q : Q) : Qpos q = true <-> (0 < q)%Q.
Proof.
  unfold Qpos. rewrite negb_true_iff, <- not_true_iff_false, Qle_bool_iff.
  split; [apply Qnot_le_lt | apply Qlt_not_le].
Qed.

Lemma date_leb_le (a b : date) : date_leb a b = true <-> date_le a b.
Proof.
  unfold date_leb, date_le.
  rewrite !orb_true_iff, !andb_true_iff, !orb_true_iff, !andb_true_iff,
    !Z.ltb_lt, !Z.eqb_eq, Z.leb_le.
  tauto.
Qed.

Lemma date_leb_refl (a : date) : date_leb a a = true.
Proof. apply date_leb_le. unfold date_le. lia. Qed.

Lemma date_le_trans (a b c : date) : date_le a b -> date_le b c -> date_le a c.
Proof. unfold date_le. lia. Qed.

Lemma date_le_total (a b : date) : date_le a b \/ date_le b a.
Proof. unfold date_le. lia. Qed.

Lemma isin_In (c : string) (values : list string) :
  isin c values = true <-> In c values.
Proof.
  unfold isin. rewrite existsb_exists. split.
  - intros (x & Hx & E). apply String.eqb_eq in E. now subst.
  - intros H. exists c. split; auto. apply String.eqb_refl.
Qed.

(** ** Loading and cleaning *)

Lemma load_data_cases (fs : FileSystem) :
  load_data fs =
  match fs "data/data.csv"%string with
  | Csv rows => clean rows
  | _ =>
      match fs "data/online_retail.csv"%string with
      | Csv rows => clean rows
      | Missing => Raise (FileNotFoundError "data/online_retail.csv")
      | Malformed => Raise (ParserError "data/online_retail.csv")
      end
  end.
Proof.
  unfold load_data, read_csv, try_except.
  destruct (fs "data/data.csv"%string);
    destruct (fs "data/online_retail.csv"%string); reflexivity.
Qed.

Lemma to_datetime_total (raw : list (Txn DateCell)) :
  (forall r, In r raw -> InvoiceDate r <> Unparseable) ->
  exists df, to_datetime raw = Ok df.
Proof.
  induction raw as [|r raw IH]; simpl; intros H.
  - now exists [].
  - destruct (InvoiceDate r) eqn:E.
    + destruct IH as [df ->]; [intros; apply H; auto|].
      simpl. eauto.
    + exfalso. apply (H r); auto.
Qed.

Lemma to_datetime_raises (raw : list (Txn DateCell)) (e : Exception) :
  to_datetime raw = Raise e ->
  e = DateParseError /\ exists r, In r raw /\ InvoiceDate r = Unparseable.
Proof.
  induction raw as [|r raw IH]; simpl; [discriminate|].
  destruct (InvoiceDate r) eqn:E.
  - destruct (to_datetime raw); simpl; [discriminate|].
    intros [= <-]. destruct (IH eq_refl) as (-> & r' & ? & ?). eauto.
  - intros [= <-]. eauto.
Qed.

(** For a file of the schema, cleaning returns a dataset when every
    date parses. *)
Lemma clean_total (raw : list (Txn DateCell)) :
  (forall r, In r raw -> InvoiceDate r <> Unparseable) ->
  exists df, clean raw = Ok df.
Proof.
  intros H. unfold clean. destruct (to_datetime_total raw H) as [df ->].
  simpl. eauto.
Qed.

Lemma clean_rows (raw : list (Txn DateCell)) (df : DataFrame) :
  clean raw = Ok df -> forall r, In r df -> cleaned_row r.
Proof.
  unfold clean. destruct (to_datetime raw) as [df0|]; simpl; [|discriminate].
  intros [= <-] r Hr. apply in_map_iff in Hr as (x & <- & Hx).
  rewrite !filter_In in Hx. destruct Hx as (((_ & Hq) & Hp) & Hd).
  unfold cleaned_row, add_columns. simpl. repeat split.
  - now apply Z.ltb_lt.
  - now apply Qpos_iff.
  - destruct (Description x); [discriminate | discriminate Hd].
Qed.

(** ** The filter *)

Lemma filter_filter {A} (p q : A -> bool) (l : list A) :
  filter q (filter p l) = filter (fun x => p x && q x) l.
Proof.
  induction l as [|x l IH]; simpl; auto.
  destruct (p x); simpl; [destruct (q x)|]; now rewrite IH.
Qed.

Lemma filter_true {A} (l : list A) : filter (fun _ => true) l = l.
Proof. induction l; simpl; congruence. Qed.

Lemma filtered_df_keeps (df : DataFrame) (date_range : list date)
      (selected_countries : list string) :
  filtered_df df date_range selected_countries
  = filter (keeps date_range selected_countries) df.
Proof.
  unfold filtered_df, keeps, date_ok, country_ok.
  assert (T : forall p, filter (fun r : Row => p r && true) df = filter p df).
  { intros p. apply filter_ext. intros r. apply andb_true_r. }
  destruct date_range as [|d0 [|d1 [|d2 rest]]];
    destruct selected_countries as [|c cs];
    rewrite ?filter_filter, ?T, ?filter_true; reflexivity.
Qed.

Lemma keeps_spec (date_range : list date) (selected_countries : list string)
      (r : Row) :
  keeps date_range selected_countries r = true <->
  (forall start stop, date_range = [start; stop] ->
                      date_le start (Date r) /\ date_le (Date r) stop) /\
  (selected_countries = [] \/ In (Country r) selected_countries).
Proof.
  unfold keeps. rewrite andb_true_iff.
  assert (C : country_ok selected_countries (Country r) = true <->
              selected_countries = [] \/ In (Country r) selected_countries).
  { unfold country_ok. destruct selected_countries as [|c cs]; [tauto|].
    rewrite isin_In. split; auto. intros [|]; [discriminate | auto]. }
  rewrite C. clear C. unfold date_ok.
  destruct date_range as [|d0 [|d1 [|d2 rest]]];
    try (split; [intros [_ H]; split; [discriminate | exact H]
                | intros [_ H]; auto]).
  rewrite andb_true_iff, !date_leb_le. split.
  - intros [H ?]. split; auto. now intros ? ? [= <- <-].
  - intros [H ?]. split; auto.
Qed.

(** *** The filter over the object store *)

Lemma nth_alloc (h : Store.heap) (d : DataFrame) :
  nth (length h) (h ++ [d]) [] = d.
Proof. rewrite app_nth2, Nat.sub_diag; auto. Qed.

Lemma copy_fresh (l : Store.loc) (h : Store.heap) :
  fresh_result h (nth l h []) (Store.copy l h).
Proof.
  unfold fresh_result, Store.copy, Store.bind, Store.deref, Store.alloc.
  cbn [fst snd]. rewrite nth_alloc. repeat split; eauto.
Qed.

Lemma getitem_fresh (h : Store.heap) (d : DataFrame) (f : Store.loc)
      (h1 : Store.heap) (mask : Row -> bool) :
  fresh_result h d (f, h1) ->
  fresh_result h (filter mask d) (Store.getitem f mask h1).
Proof.
  unfold fresh_result, Store.getitem, Store.bind, Store.deref, Store.alloc.
  cbn [fst snd]. intros ([new ->] & Hf & <-).
  rewrite nth_alloc. repeat split.
  - exists (new ++ [filter mask (nth f (h ++ new) [])]).
    now rewrite app_assoc.
  - rewrite length_app. lia.
Qed.

Lemma bind_fresh (h : Store.heap) (d d' : DataFrame)
      (m : Store.M Store.loc) (k : Store.loc -> Store.M Store.loc)
      (h0 : Store.heap) :
  fresh_result h d (m h0) ->
  (forall f h1, fresh_result h d (f, h1) -> fresh_result h d' (k f h1)) ->
  fresh_result h d' (Store.bind m k h0).
Proof. unfold Store.bind. destruct (m h0). auto. Qed.

Lemma apply_filters_fresh (df : Store.loc) (date_range : list date)
      (selected_countries : list string) (h : Store.heap) :
  fresh_result h (filtered_df (nth df h []) date_range selected_countries)
               (Store.apply_filters df date_range selected_countries h).
Proof.
  unfold Store.apply_filters, filtered_df. cbv zeta.
  eapply bind_fresh; [apply copy_fresh|]. intros f0 h0 H0.
  eapply (bind_fresh h
            match date_range with
            | [d0; d1] =>
                filter (fun r => date_leb d0 (Date r) && date_leb (Date r) d1)
                       (nth df h [])
            | _ => nth df h []
            end).
  { destruct date_range as [|d0 [|d1 [|d2 rest]]];
      auto using getitem_fresh. }
  intros f1 h1 H1.
  eapply bind_fresh; [|intros f2 h2 H2; exact H2].
  destruct selected_countries as [|c cs]; auto using getitem_fresh.
Qed.

(** ** Reductions *)

Lemma dropna_In {A} (col : list (option A)) (a : A) :
  In a (dropna col) <-> In (Some a) col.
Proof.
  induction col as [|[b|] col IH]; simpl.
  - tauto.
  - rewrite IH. split; intros [E|]; auto; left; congruence.
  - rewrite IH. split; auto. intros [E|]; [discriminate | auto].
Qed.

Lemma dropna_map_Some {A B} (f : A -> B) (l : list A) :
  dropna (map (fun x => Some (f x)) l) = map f l.
Proof. induction l; simpl; congruence. Qed.

Section Unique.
Context {A : Type} (eqb : A -> A -> bool).
Hypothesis eqb_eq : forall a b, eqb a b = true <-> a = b.

Lemma unique_In (col : list A) (x : A) : In x (unique eqb col) <-> In x col.
Proof.
  induction col as [|a col IH]; simpl; [tauto|].
  rewrite filter_In, IH, negb_true_iff.
  split; [tauto|]. intros [E|H]; auto.
  destruct (eqb a x) eqn:E; auto. apply eqb_eq in E. auto.
Qed.

Lemma unique_NoDup (col : list A) : NoDup (unique eqb col).
Proof.
  induction col as [|a col IH]; simpl; constructor.
  - rewrite filter_In, negb_true_iff. intros [_ E].
    rewrite <- not_true_iff_false, eqb_eq in E. auto.
  - now apply NoDup_filter.
Qed.

(** [nunique] counts the distinct non-missing values, whichever way they
    are enumerated. *)
Lemma nunique_card (col : list (option A)) (values : list A) :
  NoDup values -> (forall a, In a values <-> In (Some a) col) ->
  nunique eqb col = length values.
Proof.
  intros ND H. unfold nunique. apply Permutation_length.
  apply NoDup_Permutation; auto using unique_NoDup.
  intros a. now rewrite unique_In, dropna_In, H.
Qed.

Lemma nunique_zero (col : list (option A)) :
  nunique eqb col = 0%nat <-> forall a, ~ In (Some a) col.
Proof.
  unfold nunique. rewrite length_zero_iff_nil. split.
  - intros E a Ha. apply dropna_In, unique_In in Ha. now rewrite E in Ha.
  - intros H. destruct (unique eqb (dropna col)) as [|a l] eqn:E; auto.
    exfalso. apply (H a). apply dropna_In, unique_In. rewrite E. now left.
Qed.
End Unique.

Lemma fold_left_Qplus (col : list Q) (a : Q) :
  (fold_left Qplus col a == a + fold_right Qplus 0 col)%Q.
Proof.
  revert a. induction col as [|x col IH]; intros a; simpl.
  - ring.
  - rewrite IH. ring.
Qed.

Lemma Qsum_cons (x : Q) (col : list Q) : (Qsum (x :: col) == x + Qsum col)%Q.
Proof.
  unfold Qsum. simpl. rewrite (fold_left_Qplus col (0 + x)),
    (fold_left_Qplus col 0). ring.
Qed.

(** ** Sorting and grouping *)

Lemma StronglySorted_filter {A} (R : A -> A -> Prop) (p : A -> bool)
      (l : list A) :
  StronglySorted R l -> StronglySorted R (filter p l).
Proof.
  induction 1 as [|a l S IH F]; simpl; [constructor|].
  destruct (p a); auto. constructor; auto.
  rewrite Forall_forall in *. intros x Hx. apply filter_In in Hx. apply F, Hx.
Qed.

Lemma firstn_In {A} (n : nat) (l : list A) (x : A) :
  In x (firstn n l) -> In x l.
Proof.
  intros H. rewrite <- (firstn_skipn n l). apply in_or_app. now left.
Qed.

Lemma StronglySorted_firstn {A} (R : A -> A -> Prop) (n : nat) (l : list A) :
  StronglySorted R l -> StronglySorted R (firstn n l).
Proof.
  intros S. revert n. induction S as [|a l S IH F]; intros [|n]; simpl;
    try constructor; auto.
  rewrite Forall_forall in *. intros x Hx. apply F. eapply firstn_In, Hx.
Qed.

Lemma StronglySorted_app_cross {A} (R : A -> A -> Prop) (l1 l2 : list A) :
  StronglySorted R (l1 ++ l2) ->
  forall x y, In x l1 -> In y l2 -> R x y.
Proof.
  induction l1 as [|a l1 IH]; simpl; intros S x y Hx Hy; [tauto|].
  inversion S as [|? ? S' F]; subst. destruct Hx as [<-|Hx]; eauto.
  rewrite Forall_forall in F. apply F, in_or_app. auto.
Qed.

Lemma NoDup_firstn {A} (n : nat) (l : list A) : NoDup l -> NoDup (firstn n l).
Proof.
  intros ND. rewrite <- (firstn_skipn n l) in ND.
  eapply NoDup_app_remove_r, ND.
Qed.

Lemma StronglySorted_map {A B} (R : B -> B -> Prop) (f : A -> B)
      (l : list A) :
  StronglySorted (fun a b => R (f a) (f b)) l <-> StronglySorted R (map f l).
Proof.
  induction l as [|a l IH]; simpl; split; intros S; try constructor;
    inversion S as [|? ? S' F]; subst; try (apply IH; auto).
  - rewrite Forall_forall in *. intros y Hy.
    apply in_map_iff in Hy as (x & <- & Hx). auto.
  - rewrite Forall_forall in *. intros x Hx. apply F. now apply in_map.
Qed.

Section KeyFacts.
Context {K : Type} (keqb kleb : K -> K -> bool) {KO : KeyOrder keqb kleb}.

Lemma keqb_false (a b : K) : keqb a b = false <-> a <> b.
Proof. rewrite <- not_true_iff_false, keqb_eq. tauto. Qed.

Lemma strictly_leb (a b : K) : strictly kleb a b -> kleb a b = true.
Proof.
  unfold strictly. intros H. destruct (kleb_total a b); congruence.
Qed.

Lemma strictly_trans (a b c : K) :
  strictly kleb a b -> strictly kleb b c -> strictly kleb a c.
Proof.
  unfold strictly. intros H1 H2. apply not_true_iff_false. intros H3.
  apply strictly_leb in H1. rewrite (kleb_trans _ _ _ H3 H1) in H2.
  discriminate.
Qed.

Lemma strictly_irrefl (a : K) : ~ strictly kleb a a.
Proof.
  unfold strictly. destruct (kleb_total a a); congruence.
Qed.

Lemma strictly_NoDup (l : list K) :
  StronglySorted (strictly kleb) l -> NoDup l.
Proof.
  induction 1 as [|a l S IH F]; constructor; auto.
  intros Ha. rewrite Forall_forall in F. apply (strictly_irrefl a). auto.
Qed.

Lemma insert_key_In (k : K) (ks : list K) (x : K) :
  In x (insert_key keqb kleb k ks) <-> x = k \/ In x ks.
Proof.
  induction ks as [|k' ks IH]; simpl.
  - intuition.
  - destruct (keqb k k') eqn:E.
    + apply keqb_eq in E. subst. simpl. intuition.
    + destruct (kleb k k'); simpl; rewrite ?IH; intuition.
Qed.

Lemma insert_key_sorted (k : K) (ks : list K) :
  StronglySorted (strictly kleb) ks ->
  StronglySorted (strictly kleb) (insert_key keqb kleb k ks).
Proof.
  induction 1 as [|k' ks S IH F]; simpl.
  - repeat constructor.
  - destruct (keqb k k') eqn:E; [constructor; auto|].
    apply keqb_false in E.
    destruct (kleb k k') eqn:L.
    + assert (H : strictly kleb k k').
      { unfold strictly. apply not_true_iff_false. intros L'.
        apply E. now apply kleb_antisym. }
      constructor; [constructor; auto|]. constructor; auto.
      rewrite Forall_forall in *. intros y Hy.
      eapply strictly_trans; eauto.
    + constructor; auto. rewrite Forall_forall in *. intros y Hy.
      apply insert_key_In in Hy as [->|Hy]; auto.
Qed.

Lemma group_keys_In (col : list (option K)) (k : K) :
  In k (group_keys keqb kleb col) <-> In (Some k) col.
Proof.
  unfold group_keys. rewrite <- dropna_In.
  induction (dropna col) as [|a l IH]; simpl; [tauto|].
  rewrite insert_key_In, IH. intuition.
Qed.

Lemma group_keys_sorted (col : list (option K)) :
  StronglySorted (strictly kleb) (group_keys keqb kleb col).
Proof.
  unfold group_keys. induction (dropna col); simpl.
  - constructor.
  - now apply insert_key_sorted.
Qed.

Lemma groupby_keys {R} (key : R -> option K) (df : list R) :
  map fst (groupby keqb kleb key df) = group_keys keqb kleb (map key df).
Proof. unfold groupby. rewrite map_map. simpl. apply map_id. Qed.

Lemma groupby_In {R} (key : R -> option K) (df : list R) (k : K)
      (g : list R) :
  In (k, g) (groupby keqb kleb key df) <->
  (exists r, In r df /\ key r = Some k) /\
  g = filter (fun r => has_key keqb k (key r)) df.
Proof.
  unfold groupby. rewrite in_map_iff. split.
  - intros (k' & [= <- <-] & Hk). split; auto.
    apply group_keys_In, in_map_iff in Hk as (r & ? & ?). eauto.
  - intros ((r & Hr & E) & ->). exists k. split; auto.
    apply group_keys_In, in_map_iff. eauto.
Qed.

Lemma has_key_true (k : K) (c : option K) :
  has_key keqb k c = true <-> c = Some k.
Proof.
  destruct c as [k'|]; simpl; [|split; discriminate].
  rewrite keqb_eq. split; congruence.
Qed.
End KeyFacts.

Lemma agg_keys {K V} (f : DataFrame -> V) (groups : list (K * DataFrame)) :
  map fst (agg f groups) = map fst groups.
Proof. unfold agg. rewrite map_map. reflexivity. Qed.

Lemma agg_In {K V} (f : DataFrame -> V) (groups : list (K * DataFrame))
      (k : K) (v : V) :
  In (k, v) (agg f groups) <-> exists g, In (k, g) groups /\ v = f g.
Proof.
  unfold agg. rewrite in_map_iff. split.
  - intros ([k' g] & [= <- <-] & H). eauto.
  - intros (g & H & ->). exists (k, g). auto.
Qed.

Section SortValuesFacts.
Context {R M : Type} (measure : R -> M) (mleb : M -> M -> bool)
        {MO : MeasureOrder mleb}.
Variable first : R -> R -> bool.

Lemma before_true (x y : R) :
  before measure mleb first x y = true -> descending measure mleb x y.
Proof.
  unfold before, descending, at_least.
  destruct (mleb (measure y) (measure x)); [reflexivity | discriminate].
Qed.

Lemma before_false (x y : R) :
  before measure mleb first x y = false -> descending measure mleb y x.
Proof.
  unfold before, descending, at_least.
  destruct (mleb (measure y) (measure x)) eqn:L.
  - destruct (mleb (measure x) (measure y)); [reflexivity | discriminate].
  - intros _. destruct (mleb_total (measure x) (measure y)); congruence.
Qed.

Lemma insert_desc_perm (x : R) (t : list R) :
  Permutation (insert_desc measure mleb first x t) (x :: t).
Proof.
  induction t as [|y t IH]; simpl; auto.
  destruct (before measure mleb first x y); auto.
  rewrite IH. apply perm_swap.
Qed.

(** The contract of [sort_values] whatever the sort kind: the rows are
    rearranged, and they come out by descending measure. *)
Lemma sort_values_desc_perm (t : list R) :
  Permutation (sort_values_desc measure mleb first t) t.
Proof.
  induction t as [|x t IH]; simpl; auto.
  rewrite insert_desc_perm. now constructor.
Qed.

Lemma insert_desc_sorted (x : R) (t : list R) :
  StronglySorted (descending measure mleb) t ->
  StronglySorted (descending measure mleb)
                 (insert_desc measure mleb first x t).
Proof.
  induction 1 as [|y t S IH F]; simpl.
  - repeat constructor.
  - destruct (before measure mleb first x y) eqn:L.
    + apply before_true in L.
      constructor; [constructor; auto|]. constructor; auto.
      rewrite Forall_forall in *. intros z Hz. unfold descending, at_least in *.
      eapply mleb_trans; eauto.
    + apply before_false in L.
      constructor; auto. rewrite Forall_forall in *. intros z Hz.
      eapply Permutation_in in Hz; [|apply insert_desc_perm].
      destruct Hz as [<-|Hz]; auto.
Qed.

Lemma sort_values_desc_sorted (t : list R) :
  StronglySorted (descending measure mleb)
                 (sort_values_desc measure mleb first t).
Proof.
  induction t; simpl; [constructor | now apply insert_desc_sorted].
Qed.

(** The first [n] rows of the sorted table: at most [n] of them, in
    descending order, and no row left out beats a row kept. *)
Lemma head_sort_values_desc (n : nat) (t : list R) :
  (length (head n (sort_values_desc measure mleb first t)) <= n)%nat /\
  StronglySorted (descending measure mleb)
                 (head n (sort_values_desc measure mleb first t)) /\
  exists rest,
    Permutation (head n (sort_values_desc measure mleb first t) ++ rest) t /\
    forall x y, In x (head n (sort_values_desc measure mleb first t)) ->
                In y rest -> descending measure mleb x y.
Proof.
  unfold head. split; [apply firstn_le_length|]. split.
  - apply StronglySorted_firstn, sort_values_desc_sorted.
  - exists (skipn n (sort_values_desc measure mleb first t)). split.
    + rewrite firstn_skipn. apply sort_values_desc_perm.
    + apply StronglySorted_app_cross. rewrite firstn_skipn.
      apply sort_values_desc_sorted.
Qed.
End SortValuesFacts.

Section SortIndexFacts.
Context {K V : Type} (keqb kleb : K -> K -> bool) {KO : KeyOrder keqb kleb}.

Lemma insert_row_perm (x : K * V) (t : list (K * V)) :
  Permutation (insert_row kleb x t) (x :: t).
Proof.
  induction t as [|y t IH]; simpl; auto.
  destruct (kleb (fst x) (fst y)); auto.
  rewrite IH. apply perm_swap.
Qed.

Lemma sort_index_perm (t : list (K * V)) :
  Permutation (sort_index kleb t) t.
Proof.
  induction t as [|x t IH]; simpl; auto.
  rewrite insert_row_perm. now constructor.
Qed.

Lemma insert_row_sorted (x : K * V) (t : list (K * V)) :
  StronglySorted (fun a b => kleb (fst a) (fst b) = true) t ->
  StronglySorted (fun a b => kleb (fst a) (fst b) = true)
                 (insert_row kleb x t).
Proof.
  induction 1 as [|y t S IH F]; simpl.
  - repeat constructor.
  - destruct (kleb (fst x) (fst y)) eqn:L.
    + constructor; [constructor; auto|]. constructor; auto.
      rewrite Forall_forall in *. intros z Hz. eapply kleb_trans; eauto.
    + constructor; auto. rewrite Forall_forall in *. intros z Hz.
      eapply Permutation_in in Hz; [|apply insert_row_perm].
      destruct Hz as [<-|Hz]; auto.
      destruct (kleb_total (fst y) (fst x)); congruence.
Qed.

Lemma sort_index_sorted (t : list (K * V)) :
  StronglySorted (fun a b => kleb (fst a) (fst b) = true)
                 (sort_index kleb t).
Proof.
  induction t; simpl; [constructor | now apply insert_row_sorted].
Qed.

(** With an index free of repetitions the order is strict. *)
Lemma sorted_NoDup_strictly (t : list (K * V)) :
  StronglySorted (fun a b => kleb (fst a) (fst b) = true) t ->
  NoDup (map fst t) ->
  StronglySorted (strictly kleb) (map fst t).
Proof.
  induction 1 as [|a t S IH F]; simpl; intros ND; [constructor|].
  inversion ND as [|? ? Ha ND']; subst. constructor; auto.
  rewrite Forall_forall in *. intros k Hk.
  apply in_map_iff in Hk as (y & <- & Hy).
  unfold strictly. apply not_true_iff_false. intros L.
  apply Ha. rewrite (kleb_antisym _ _ (F y Hy) L). now apply in_map.
Qed.

Lemma sort_index_strictly (t : list (K * V)) :
  NoDup (map fst t) ->
  StronglySorted (strictly kleb) (map fst (sort_index kleb t)).
Proof.
  intros ND. apply sorted_NoDup_strictly; [apply sort_index_sorted|].
  eapply Permutation_NoDup; [|exact ND].
  apply Permutation_map, Permutation_sym, sort_index_perm.
Qed.
End SortIndexFacts.

(** ** [value_counts] *)

Lemma count_of_pos (v : nat) (col : list nat) :
  (0 < count_of v col)%nat <-> In v col.
Proof.
  unfold count_of. induction col as [|x col IH]; simpl; [split; [lia|tauto]|].
  destruct (Nat.eqb v x) eqn:E; simpl.
  - apply Nat.eqb_eq in E. split; auto. lia.
  - apply Nat.eqb_neq in E. rewrite IH. split; auto.
    intros [H|H]; [congruence | exact H].
Qed.

Lemma value_counts_perm (col : list nat) :
  Permutation (value_counts col)
              (map (fun v => (v, count_of v col)) (unique Nat.eqb col)).
Proof. apply (sort_values_desc_perm snd Nat.leb). Qed.

Lemma value_counts_In (col : list nat) (k m : nat) :
  In (k, m) (value_counts col) <-> In k col /\ m = count_of k col.
Proof.
  split.
  - intros H. eapply Permutation_in in H; [|apply value_counts_perm].
    apply in_map_iff in H as (v & [= <- <-] & Hv).
    apply (proj1 (unique_In Nat.eqb Nat.eqb_eq _ _)) in Hv. auto.
  - intros [Hk ->].
    eapply Permutation_in; [apply Permutation_sym, value_counts_perm|].
    apply in_map_iff. exists k. split; auto.
    now apply (proj2 (unique_In Nat.eqb Nat.eqb_eq _ _)).
Qed.

Lemma value_counts_NoDup (col : list nat) :
  NoDup (map fst (value_counts col)).
Proof.
  eapply Permutation_NoDup.
  - apply Permutation_map, Permutation_sym, value_counts_perm.
  - rewrite map_map. simpl. rewrite map_id.
    apply (unique_NoDup Nat.eqb Nat.eqb_eq).
Qed.

(** * The claims *)

(** ** C1: the invariant of the cleaned dataset *)

Lemma filtered_df_incl (df : DataFrame) (date_range : list date)
      (selected_countries : list string) (r : Row) :
  In r (filtered_df df date_range selected_countries) -> In r df.
Proof. rewrite filtered_df_keeps, filter_In. tauto. Qed.

(** C1.  Whatever the files hold, every row of the dataset that
    [load_data] returns has Quantity > 0, UnitPrice > 0, a Description,
    and TotalPrice = Quantity * UnitPrice; and every row of every filtered
    view is one of those rows, unchanged, so that nothing downstream
    recomputes or alters TotalPrice. *)
Theorem load_data_rows_clean (fs : FileSystem) (df : DataFrame) :
  load_data fs = Ok df ->
  (forall r, In r df -> cleaned_row r) /\
  (forall date_range selected_countries r,
      In r (filtered_df df date_range selected_countries) ->
      In r df /\ cleaned_row r).
Proof.
  intros H.
  assert (C : forall r, In r df -> cleaned_row r).
  { rewrite load_data_cases in H.
    destruct (fs "data/data.csv"%string);
      [destruct (fs "data/online_retail.csv"%string); try discriminate| |];
      try destruct (fs "data/online_retail.csv"%string); try discriminate;
      eauto using clean_rows. }
  split; auto. intros dr cs r Hr. apply filtered_df_incl in Hr. auto.
Qed.

Lemma load_data_rows_clean_witness :
  load_data example_fs = Ok example_df /\
  ((forall r, In r example_df -> cleaned_row r) /\
   (forall date_range selected_countries r,
       In r (filtered_df example_df date_range selected_countries) ->
       In r example_df /\ cleaned_row r)).
Proof.
  split; [reflexivity|].
  apply (load_data_rows_clean example_fs). reflexivity.
Defined.

(** The second row of the example, with Quantity -1, is dropped. *)
Example load_data_example : load_data example_fs = Ok example_df.
Proof. reflexivity. Qed.

(** ** C2: what the filter keeps *)

(** C2.  The filtered view is the cleaned dataset restricted, in order,
    to the rows the selection keeps; a row is kept iff its Date lies in
    [start, end] whenever the date interval is a pair [start, end] (any
    other interval restricts nothing) and its Country is selected or no
    country is selected.  The filter is a total function: it never
    raises. *)
Theorem filtered_df_spec (df : DataFrame) (date_range : list date)
        (selected_countries : list string) :
  filtered_df df date_range selected_countries
  = filter (keeps date_range selected_countries) df /\
  forall r,
    In r (filtered_df df date_range selected_countries) <->
    In r df /\
    (forall start stop, date_range = [start; stop] ->
                        date_le start (Date r) /\ date_le (Date r) stop) /\
    (selected_countries = [] \/ In (Country r) selected_countries).
Proof.
  split; [apply filtered_df_keeps|].
  intros r. rewrite filtered_df_keeps, filter_In, keeps_spec. tauto.
Qed.

Lemma filtered_df_spec_witness :
  filtered_df example_df january ["UK"%string]
  = [add_columns (mkTxn (Some "1") (Some "A") (Some "mug") 5
                        (at_noon 2011 1 5) 2 (Some 100%Z) "UK")]%string /\
  filtered_df example_df [mkDate 2011 1 1] [] = example_df /\
  forall r,
    In r (filtered_df example_df january ["UK"%string]) <->
    In r example_df /\
    (forall start stop, january = [start; stop] ->
                        date_le start (Date r) /\ date_le (Date r) stop) /\
    (["UK"%string] = [] \/ In (Country r) ["UK"%string]).
Proof.
  split; [reflexivity|]. split; [reflexivity|].
  apply (proj2 (filtered_df_spec example_df january ["UK"%string])).
Defined.

(** ** C3: the empty view *)



(** A dataset that cleaning has emptied never gets as far as the
    filter: the date widget raises on it. *)
Lemma app_empty_dataset (ties : TieOrder) (fs : FileSystem)
      (date_range : list date) (selected_countries : list string) :
  load_data fs = Ok [] ->
  app ties fs date_range selected_countries = WidgetFailed.
Proof. unfold app. now intros ->. Qed.

Example app_returns_only :
  load_data fs_returns_only = Ok [] /\
  app key_order fs_returns_only [] [] = WidgetFailed.
Proof. split; reflexivity. Qed.



(** ** C5: the KPI scalars *)

(** C5.  For any view, and any duplicate-free enumerations of the
    InvoiceNo values and of the non-missing CustomerID values that occur
    in it: the total revenue is the sum of the TotalPrice column, the
    order count is the number of invoices, the customer count is the
    number of customers, and the average order value is revenue divided
    by the order count, or 0 when there is no order. *)
Theorem kpi_spec (view : DataFrame) (invoices : list string)
        (customers : list Z) :
  NoDup invoices ->
  (forall i, In i invoices <->
             exists r : Row, In r view /\ InvoiceNo r = Some i) ->
  NoDup customers ->
  (forall c, In c customers <->
             exists r : Row, In r view /\ CustomerID r = Some c) ->
  (total_revenue view == fold_right Qplus 0 (map TotalPrice view))%Q /\
  total_orders view = length invoices /\
  total_customers view = length customers /\
  avg_order_value view =
    match length invoices with
    | O => 0%Q
    | S _ => (total_revenue view / inject_Z (Z.of_nat (length invoices)))%Q
    end.
Proof.
  intros NI HI NC HC.
  assert (EO : total_orders view = length invoices).
  { apply (nunique_card String.eqb String.eqb_eq); auto.
    intros i. rewrite HI, in_map_iff. split; intros (r & ? & ?); eauto. }
  assert (EC : total_customers view = length customers).
  { apply (nunique_card Z.eqb Z.eqb_eq); auto.
    intros c. rewrite HC, in_map_iff. split; intros (r & ? & ?); eauto. }
  repeat split; auto.
  - unfold total_revenue, Qsum. rewrite fold_left_Qplus. ring.
  - unfold avg_order_value. rewrite EO.
    destruct (length invoices); reflexivity.
Qed.

Lemma kpi_spec_witness :
  (total_revenue example_df
   == fold_right Qplus 0 (map TotalPrice example_df))%Q /\
  total_orders example_df = 2%nat /\
  total_customers example_df = 1%nat /\
  avg_order_value example_df
  = (total_revenue example_df / inject_Z (Z.of_nat 2))%Q.
Proof.
  apply (kpi_spec example_df ["1"; "3"]%string [100%Z]).
  - repeat constructor; simpl; intuition discriminate.
  - intros i. simpl. split.
    + intros [<-|[<-|[]]];
        [ eexists; split; [left; reflexivity | reflexivity]
        | eexists; split; [right; left; reflexivity | reflexivity] ].
    + intros (r & [<-|[<-|[]]] & [= <-]); auto.
  - repeat constructor; simpl; tauto.
  - intros c. simpl. split.
    + intros [<-|[]]. eexists; split; [left; reflexivity | reflexivity].
    + intros (r & [<-|[<-|[]]] & E); simpl in E; [left|]; congruence.
Defined.

(** The scenario of the specification (section 8): January 2011, UK. *)
Example january_uk_dashboard :
  load_data example_fs = Ok example_df /\
  render key_order (filtered_df example_df january ["UK"%string])
  = mkDashboard 10 1 1 10
                [("2011-01"%string, 10)] [("2011-01"%string, 1%nat)]
                [("UK"%string, (10, 1%nat))] [("UK"%string, (10, 1%nat))]
                [("mug"%string, 5%Z)] [("mug"%string, 10)]
                [(12%Z, 1%nat)] [(1%nat, 1%nat)].
Proof. split; reflexivity. Qed.

(** ** C6: candidate paths and load errors *)

(** C6, as stated, fails.  The specification asks the load error to tell
    a source that was not found from one that is malformed.  With data/data.csv unreadable and
    data/online_retail.csv absent the error is the one of a missing
    file, the same as when no candidate exists at all: the bare [except]
    of line 37 has dropped what went wrong with the first candidate. *)
Lemma load_error_hides_malformed_source :
  load_data fs_malformed_then_missing
  = Raise (FileNotFoundError "data/online_retail.csv") /\
  reports_not_found (FileNotFoundError "data/online_retail.csv") /\
  ~ source_not_found fs_malformed_then_missing /\
  source_not_found fs_nothing /\
  load_data fs_nothing = load_data fs_malformed_then_missing.
Proof.
  split; [reflexivity|]. split; [eexists; reflexivity|].
  split; [|split; [split; reflexivity | reflexivity]].
  intros [H _]. discriminate H.
Qed.

(** No fallback once a file has been read: a date that does not parse in
    data/data.csv fails the load although data/online_retail.csv is
    sound. *)
Example load_data_bad_date_no_fallback :
  load_data fs_bad_date_then_good = Raise DateParseError /\
  clean example_rows = Ok example_df.
Proof. split; reflexivity. Qed.

(** C6, amended.  [load_data] cleans data/data.csv when [read_csv] can
    read it, and otherwise data/online_retail.csv when that one can be
    read; when neither can, the error is the one raised for
    data/online_retail.csv alone.  A failed load, and only a failed
    load, ends the run in the load-failure state carrying that error; no
    dataset is filtered or rendered. *)
Theorem load_data_candidates (ties : TieOrder) (fs : FileSystem)
        (date_range : list date) (selected_countries : list string) :
  load_data fs =
  match fs "data/data.csv"%string with
  | Csv rows => clean rows
  | _ =>
      match fs "data/online_retail.csv"%string with
      | Csv rows => clean rows
      | Missing => Raise (FileNotFoundError "data/online_retail.csv")
      | Malformed => Raise (ParserError "data/online_retail.csv")
      end
  end /\
  forall e, app ties fs date_range selected_countries = LoadFailed e <->
            load_data fs = Raise e.
Proof.
  split; [apply load_data_cases|].
  intros e. unfold app. destruct (load_data fs) as [df|e'].
  - destruct (min_date df), (max_date df);
      try destruct (length _ =? 0)%nat; split; discriminate.
  - split; congruence.
Qed.

Lemma load_data_candidates_witness :
  app key_order fs_malformed_then_missing january []
  = LoadFailed (FileNotFoundError "data/online_retail.csv").
Proof.
  apply (proj2 (load_data_candidates key_order fs_malformed_then_missing
                                     january [])).
  reflexivity.
Defined.

(** ** C7: filtering twice *)

Lemma date_leb_max (a b d : date) :
  date_leb (date_max a b) d = date_leb a d && date_leb b d.
Proof.
  apply eq_true_iff_eq. rewrite andb_true_iff, !date_leb_le.
  unfold date_max. destruct (date_leb a b) eqn:E.
  - apply date_leb_le in E. unfold date_le in *. lia.
  - rewrite <- not_true_iff_false, date_leb_le in E.
    unfold date_le in *. lia.
Qed.

Lemma date_leb_min (a b d : date) :
  date_leb d (date_min a b) = date_leb d a && date_leb d b.
Proof.
  apply eq_true_iff_eq. rewrite andb_true_iff, !date_leb_le.
  unfold date_min. destruct (date_leb a b) eqn:E.
  - apply date_leb_le in E. unfold date_le in *. lia.
  - rewrite <- not_true_iff_false, date_leb_le in E.
    unfold date_le in *. lia.
Qed.

Lemma date_ok_inter (r1 r2 : list date) (d : date) :
  date_ok (inter_range r1 r2) d = date_ok r1 d && date_ok r2 d.
Proof.
  destruct r1 as [|s1 [|e1 [|x1 r1]]]; destruct r2 as [|s2 [|e2 [|x2 r2]]];
    cbn [inter_range date_ok]; rewrite ?andb_true_r; try reflexivity.
  rewrite date_leb_max, date_leb_min.
  destruct (date_leb s1 d), (date_leb s2 d), (date_leb d e1),
    (date_leb d e2); reflexivity.
Qed.

Lemma isin_filter (c : string) (c1 c2 : list string) :
  isin c (filter (fun x => isin x c2) c1) = isin c c1 && isin c c2.
Proof.
  apply eq_true_iff_eq. rewrite andb_true_iff, !isin_In, filter_In, isin_In.
  tauto.
Qed.

Lemma country_ok_inter (c1 c2 : list string) (c : string) :
  compatible c1 c2 = true ->
  country_ok (inter_countries c1 c2) c = country_ok c1 c && country_ok c2 c.
Proof.
  destruct c1 as [|a c1]; [reflexivity|].
  destruct c2 as [|b c2]; [intros _; cbn; now rewrite andb_true_r|].
  cbn [compatible inter_countries]. intros H.
  destruct (filter (fun x => isin x (b :: c2)) (a :: c1)) as [|y l] eqn:E;
    [discriminate|].
  rewrite <- E. unfold country_ok at 1. rewrite E, <- E.
  apply isin_filter.
Qed.

(** C7.  For selections whose country lists are compatible, filtering by
    the first and then filtering the result by the second gives the same
    view as filtering once by their intersection, which is the view of
    the rows both selections keep.  The filter is a function of its
    arguments and has no other effect. *)
Theorem filter_twice (D : DataFrame) (r1 r2 : list date)
        (c1 c2 : list string) :
  compatible c1 c2 = true ->
  filtered_df (filtered_df D r1 c1) r2 c2
  = filtered_df D (inter_range r1 r2) (inter_countries c1 c2) /\
  filtered_df (filtered_df D r1 c1) r2 c2
  = filter (fun r => keeps r1 c1 r && keeps r2 c2 r) D.
Proof.
  intros H. rewrite !filtered_df_keeps, filter_filter. split; auto.
  apply filter_ext. intros r. unfold keeps.
  rewrite date_ok_inter, (country_ok_inter _ _ _ H).
  destruct (date_ok r1 (Date r)), (date_ok r2 (Date r)),
    (country_ok c1 (Country r)), (country_ok c2 (Country r)); reflexivity.
Qed.

Lemma filter_twice_witness :
  filtered_df (filtered_df example_df january ["UK"; "FR"]%string)
              [] ["UK"%string]
  = filtered_df example_df (inter_range january [])
                (inter_countries ["UK"; "FR"]%string ["UK"%string]) /\
  filtered_df (filtered_df example_df january ["UK"; "FR"]%string)
              [] ["UK"%string]
  = filter (fun r => keeps january ["UK"; "FR"]%string r
                     && keeps [] ["UK"%string] r) example_df.
Proof.
  apply (filter_twice example_df january [] ["UK"; "FR"]%string
                      ["UK"%string]).
  reflexivity.
Defined.

(** Two non-empty country lists without a common country are not
    compatible: their intersection is the empty list, which as a
    selection restricts nothing. *)
Example filter_twice_disjoint_countries :
  compatible ["UK"%string] ["FR"%string] = false /\
  filtered_df (filtered_df example_df [] ["UK"%string]) [] ["FR"%string] = [] /\
  filtered_df example_df []
              (filter (fun c => isin c ["FR"%string]) ["UK"%string])
  = example_df.
Proof. repeat split. Qed.

(** ** C9: the cleaned dataset is left as it was *)

(** C9.  Running the filter block on a store in which [df] names the
    cleaned dataset leaves that object, and every other object that
    existed, as it was; the filtered view is a different, new object,
    and it holds the rows the filter keeps. *)
Theorem filtering_preserves_dataset (h : Store.heap) (df : Store.loc)
        (date_range : list date) (selected_countries : list string) :
  (df < length h)%nat ->
  let run := Store.apply_filters df date_range selected_countries h in
  nth df (snd run) [] = nth df h [] /\
  (forall l, (l < length h)%nat -> nth_error (snd run) l = nth_error h l) /\
  fst run <> df /\
  nth (fst run) (snd run) []
  = filtered_df (nth df h []) date_range selected_countries.
Proof.
  intros Hdf run.
  destruct (apply_filters_fresh df date_range selected_countries h)
    as ([new E] & Hf & Hc).
  fold run in E, Hf, Hc. rewrite E in *. repeat split.
  - now rewrite app_nth1.
  - intros l Hl. now rewrite nth_error_app1.
  - lia.
  - exact Hc.
Qed.

Lemma filtering_preserves_dataset_witness :
  let run := Store.apply_filters 0%nat january ["UK"%string] [example_df] in
  nth 0%nat (snd run) [] = example_df /\
  (forall l, (l < 1)%nat -> nth_error (snd run) l = nth_error [example_df] l) /\
  fst run <> 0%nat /\
  nth (fst run) (snd run) [] = filtered_df example_df january ["UK"%string].
Proof.
  apply (filtering_preserves_dataset [example_df] 0%nat january
                                     ["UK"%string]).
  simpl. lia.
Defined.

(** ** Keys and order of the aggregate tables *)

Lemma StronglySorted_impl {A} (R R' : A -> A -> Prop) (l : list A) :
  (forall a b, R a b -> R' a b) -> StronglySorted R l -> StronglySorted R' l.
Proof.
  intros I. induction 1 as [|a l S IH F]; constructor; auto.
  eapply Forall_impl; [|exact F]. auto.
Qed.

Lemma head_keys_NoDup {K V M} (measure : K * V -> M) (mleb : M -> M -> bool)
      (first : K * V -> K * V -> bool) (n : nat) (t : list (K * V)) :
  NoDup (map fst t) ->
  NoDup (map fst (head n (sort_values_desc measure mleb first t))).
Proof.
  intros ND. unfold head. rewrite <- firstn_map. apply NoDup_firstn.
  eapply Permutation_NoDup; [|exact ND].
  apply Permutation_map, Permutation_sym, sort_values_desc_perm.
Qed.

Lemma head_keys_NoDup' {K V} (n : nat) (t : list (K * V)) :
  NoDup (map fst t) -> NoDup (map fst (head n t)).
Proof. intros ND. unfold head. rewrite <- firstn_map. now apply NoDup_firstn. Qed.

Section GroupTables.
Context {K V : Type} (keqb kleb : K -> K -> bool) {KO : KeyOrder keqb kleb}.
Variables (key : Row -> option K) (f : DataFrame -> V).

Lemma agg_groupby_sorted (view : DataFrame) :
  StronglySorted (strictly kleb)
                 (map fst (agg f (groupby keqb kleb key view))).
Proof.
  rewrite agg_keys. unfold DataFrame. rewrite (groupby_keys keqb kleb).
  apply (group_keys_sorted keqb kleb).
Qed.

Lemma agg_groupby_NoDup (view : DataFrame) :
  NoDup (map fst (agg f (groupby keqb kleb key view))).
Proof.
  apply (strictly_NoDup keqb kleb), agg_groupby_sorted.
Qed.

Lemma agg_groupby_In (view : DataFrame) (k : K) (v : V) :
  In (k, v) (agg f (groupby keqb kleb key view)) <->
  (exists r, In r view /\ key r = Some k) /\
  v = f (filter (fun r => has_key keqb k (key r)) view).
Proof.
  rewrite agg_In. split.
  - intros (g & Hg & ->). apply (groupby_In keqb kleb) in Hg as [? ->].
    auto.
  - intros [H ->]. eexists. split; [|reflexivity].
    apply (groupby_In keqb kleb). auto.
Qed.
End GroupTables.

(** ** C10: one row per group key *)

(** C10.  In the monthly, country, product and hourly tables no group key
    occurs in two rows; the two monthly tables are in ascending order of
    the YearMonth text and the hourly table in ascending order of the
    hour. *)
Theorem group_key_once (ties : TieOrder) (view : DataFrame) :
  (NoDup (map fst (monthly_revenue view)) /\
   NoDup (map fst (monthly_orders view)) /\
   NoDup (map fst (country_stats ties view)) /\
   NoDup (map fst (top5 ties view)) /\
   NoDup (map fst (top_products_qty ties view)) /\
   NoDup (map fst (top_products_rev ties view)) /\
   NoDup (map fst (hourly view))) /\
  StronglySorted (fun a b => String.ltb a b = true)
                 (map fst (monthly_revenue view)) /\
  StronglySorted (fun a b => String.ltb a b = true)
                 (map fst (monthly_orders view)) /\
  StronglySorted Z.lt (map fst (hourly view)).
Proof.
  split; [repeat split|repeat split].
  - apply (agg_groupby_NoDup String.eqb String.leb).
  - apply (agg_groupby_NoDup String.eqb String.leb).
  - apply head_keys_NoDup, (agg_groupby_NoDup String.eqb String.leb).
  - apply head_keys_NoDup', head_keys_NoDup,
      (agg_groupby_NoDup String.eqb String.leb).
  - apply head_keys_NoDup, (agg_groupby_NoDup String.eqb String.leb).
  - apply head_keys_NoDup, (agg_groupby_NoDup String.eqb String.leb).
  - apply (agg_groupby_NoDup Z.eqb Z.leb).
  - eapply StronglySorted_impl; [apply strictly_string|].
    apply (agg_groupby_sorted String.eqb String.leb).
  - eapply StronglySorted_impl; [apply strictly_string|].
    apply (agg_groupby_sorted String.eqb String.leb).
  - eapply StronglySorted_impl; [apply strictly_Z|].
    apply (agg_groupby_sorted Z.eqb Z.leb).
Qed.

(** ** C4: the top-N tables *)

(** C4, as stated, fails.  The specification asks for a strictly
    descending measure, with groups of equal measure in the order of
    their keys.  Two countries with the same revenue both appear, one
    after the other, whatever the sort does with them; and when the sort
    places the later key first, as it may, UK comes before FR.  The
    same choice on four countries with revenues 1, 1, 3, 3 gives DD,
    CC, BB, AA. *)
Lemma top_n_ties_not_in_key_order :
  (forall ties,
      ~ StronglySorted (fun a b => (Revenue b < Revenue a)%Q)
                       (country_stats ties tie_view)) /\
  country_stats later_first tie_view
  = [("UK"%string, (10, 1%nat)); ("FR"%string, (10, 1%nat))] /\
  ~ ties_by_key (fun a b => (Revenue a == Revenue b)%Q)
                (country_stats later_first tie_view) /\
  map fst (country_stats later_first two_ties_view)
  = ["DD"; "CC"; "BB"; "AA"]%string.
Proof.
  split; [|split; [reflexivity|split; [|reflexivity]]].
  - intros ties S.
    assert (E : country_stats ties tie_view
                = [("FR"%string, (10, 1%nat)); ("UK"%string, (10, 1%nat))] \/
                country_stats ties tie_view
                = [("UK"%string, (10, 1%nat)); ("FR"%string, (10, 1%nat))]).
    { unfold country_stats, head, sort_values_desc, by_key. cbn.
      unfold before. cbn. destruct (ties "FR"%string "UK"%string); auto. }
    destruct E as [E|E]; rewrite E in S;
      inversion S as [|a l _ F]; subst;
      inversion F as [|b l' Lt _]; subst;
      revert Lt; unfold Revenue, Qlt; simpl; lia.
  - change (country_stats later_first tie_view)
      with [("UK"%string, (10, 1%nat)); ("FR"%string, (10, 1%nat))].
    unfold ties_by_key. intros S. inversion S as [|a l _ F]; subst.
    inversion F as [|b l' K _]; subst.
    assert (X : String.ltb "UK" "FR" = true)
      by (apply K; unfold Revenue; simpl; reflexivity).
    discriminate X.
Qed.

Lemma head_sorted_Q {R} (measure : R -> Q) (first : R -> R -> bool)
      (n : nat) (t : list R) :
  (length (head n (sort_values_desc measure Qle_bool first t)) <= n)%nat /\
  StronglySorted (fun a b => (measure b <= measure a)%Q)
                 (head n (sort_values_desc measure Qle_bool first t)).
Proof.
  destruct (head_sort_values_desc measure Qle_bool first n t) as (L & S & _).
  split; auto. eapply StronglySorted_impl; [|exact S].
  intros a b. unfold descending, at_least. apply Qle_bool_iff.
Qed.

Lemma head_sorted_Z {R} (measure : R -> Z) (first : R -> R -> bool)
      (n : nat) (t : list R) :
  (length (head n (sort_values_desc measure Z.leb first t)) <= n)%nat /\
  StronglySorted (fun a b => (measure b <= measure a)%Z)
                 (head n (sort_values_desc measure Z.leb first t)).
Proof.
  destruct (head_sort_values_desc measure Z.leb first n t) as (L & S & _).
  split; auto. eapply StronglySorted_impl; [|exact S].
  intros a b. unfold descending, at_least. apply Z.leb_le.
Qed.

(** C4, amended.  Whatever the sort does with groups of equal measure,
    each top-N table has at most N rows (10 for the country table and
    the two product tables, 5 for the country share) and its rows are in
    descending order of the measure, rows of equal measure being allowed
    next to each other. *)
Theorem top_n_tables (ties : TieOrder) (view : DataFrame) :
  ((length (country_stats ties view) <= 10)%nat /\
   StronglySorted (fun a b => (Revenue b <= Revenue a)%Q)
                  (country_stats ties view)) /\
  ((length (top5 ties view) <= 5)%nat /\
   StronglySorted (fun a b => (Revenue b <= Revenue a)%Q) (top5 ties view)) /\
  ((length (top_products_qty ties view) <= 10)%nat /\
   StronglySorted (fun a b => (snd b <= snd a)%Z)
                  (top_products_qty ties view)) /\
  ((length (top_products_rev ties view) <= 10)%nat /\
   StronglySorted (fun a b => (snd b <= snd a)%Q)
                  (top_products_rev ties view)).
Proof.
  split; [apply head_sorted_Q|]. split; [|split].
  - split; [apply firstn_le_length|].
    apply StronglySorted_firstn, head_sorted_Q.
  - apply head_sorted_Z.
  - apply head_sorted_Q.
Qed.

(** ** C8: the customer order distribution *)

Lemma count_of_map {A} (f : A -> nat) (k : nat) (l : list A) :
  count_of k (map f l) = length (filter (fun x => Nat.eqb k (f x)) l).
Proof.
  unfold count_of. induction l as [|x l IH]; simpl; auto.
  destruct (Nat.eqb k (f x)); simpl; congruence.
Qed.

Lemma distinct_invoices_orders_of (view : DataFrame) (P : Row -> Prop)
      (p : Row -> bool) (n : nat) :
  (forall r, p r = true <-> P r) ->
  distinct_invoices view P n <-> n = orders_of (filter p view).
Proof.
  intros HP.
  assert (M : forall i,
             In (Some i) (map (fun r : Row => InvoiceNo r) (filter p view)) <->
             exists r : Row, In r view /\ P r /\ InvoiceNo r = Some i).
  { intros i. rewrite in_map_iff. split.
    - intros (r & E & Hr). apply filter_In in Hr as [Hr Hp].
      exists r. repeat split; auto. now apply HP.
    - intros (r & Hr & Hp & E). exists r. split; auto.
      apply filter_In. split; auto. now apply HP. }
  split.
  - intros (invoices & ND & HI & ->). unfold orders_of. symmetry.
    apply (nunique_card String.eqb String.eqb_eq); auto.
    intros i. now rewrite HI, M.
  - intros ->.
    exists (unique String.eqb
                   (dropna (map (fun r : Row => InvoiceNo r) (filter p view)))).
    split; [apply (unique_NoDup String.eqb String.eqb_eq)|].
    split; [|reflexivity].
    intros i. rewrite <- M, <- dropna_In.
    apply (unique_In String.eqb String.eqb_eq).
Qed.

Lemma count_rows_with (k : nat) (t : list (Z * nat)) (customers : list Z) :
  NoDup (map fst t) -> NoDup customers ->
  (forall c, In c customers <-> In (c, k) t) ->
  length (filter (fun row => Nat.eqb k (snd row)) t) = length customers.
Proof.
  intros NT NC H. rewrite <- (length_map fst).
  apply Permutation_length, NoDup_Permutation; auto.
  - clear - NT. induction t as [|[c n] t IH]; simpl in *; [constructor|].
    inversion NT as [|? ? Hc NT']; subst.
    destruct (Nat.eqb k n); simpl; auto. constructor; auto.
    intros Hin. apply Hc. apply in_map_iff in Hin as (x & E & Hx).
    apply filter_In in Hx as [Hx _]. apply in_map_iff. eauto.
  - intros c. rewrite H, in_map_iff. split.
    + intros ([c' n] & E & Hx). simpl in E. subst c'.
      apply filter_In in Hx as [Hx En]. cbn in En.
      apply Nat.eqb_eq in En. now subst.
    + intros Hc. exists (c, k). split; auto.
      apply filter_In. split; auto. cbn. apply Nat.eqb_refl.
Qed.

(** C8.  [customer_orders] has a row (c, n) exactly when c is a
    non-missing CustomerID of the view and n is the number of distinct
    InvoiceNo among the rows of that customer; no customer has two rows,
    and rows without a CustomerID take no part.  [order_distribution]
    has a row (k, m) exactly when k is at most 20 and is the order count
    of some customer, m being the number of customers with that order
    count; its rows are in ascending order of k. *)
Theorem order_distribution_spec (view : DataFrame) :
  (forall c n,
      In (c, n) (customer_orders view) <->
      (exists r : Row, In r view /\ CustomerID r = Some c) /\
      distinct_invoices view (fun r : Row => CustomerID r = Some c) n) /\
  NoDup (map fst (customer_orders view)) /\
  (forall k m,
      In (k, m) (order_distribution view) <->
      (k <= 20)%nat /\
      (exists c, In (c, k) (customer_orders view)) /\
      exists customers : list Z,
        NoDup customers /\
        (forall c, In c customers <-> In (c, k) (customer_orders view)) /\
        m = length customers) /\
  StronglySorted lt (map fst (order_distribution view)).
Proof.
  assert (ND : NoDup (map fst (customer_orders view)))
    by apply (agg_groupby_NoDup Z.eqb Z.leb).
  split; [|split; [exact ND|split]].
  - intros c n.
    rewrite (distinct_invoices_orders_of
               view _ (fun r : Row => has_key Z.eqb c (CustomerID r)) n)
      by (intros r; apply (has_key_true Z.eqb Z.leb)).
    apply (agg_groupby_In Z.eqb Z.leb).
  - intros k m. unfold order_distribution. rewrite filter_In. cbn [fst].
    rewrite Nat.leb_le.
    assert (P : In (k, m) (sort_index Nat.leb
                             (value_counts (map snd (customer_orders view))))
                <-> In (k, m) (value_counts (map snd (customer_orders view)))).
    { split; apply Permutation_in;
        [|apply Permutation_sym]; apply sort_index_perm. }
    rewrite P, value_counts_In, in_map_iff, count_of_map. split.
    + intros [[([c n] & E & H) ->] L]. simpl in E. subst n.
      split; auto. split; [eauto|].
      exists (map fst (filter (fun row => Nat.eqb k (snd row))
                              (customer_orders view))).
      split; [|split; [|now rewrite length_map]].
      * clear - ND. induction (customer_orders view) as [|[c' n'] t IH];
          simpl in *; [constructor|].
        inversion ND as [|? ? Hc NT']; subst.
        destruct (Nat.eqb k n'); simpl; auto. constructor; auto.
        intros Hin. apply Hc. apply in_map_iff in Hin as (x & E & Hx).
        apply filter_In in Hx as [Hx _]. apply in_map_iff. eauto.
      * intros c0. rewrite in_map_iff. split.
        -- intros ([c' n'] & E & Hx). simpl in E. subst c'.
           apply filter_In in Hx as [Hx En]. cbn in En.
           apply Nat.eqb_eq in En. now subst.
        -- intros Hc. exists (c0, k). split; auto.
           apply filter_In. split; auto. cbn. apply Nat.eqb_refl.
    + intros (L & (c & H) & customers & NC & HC & ->). split; auto.
      split; [exists (c, k); auto|].
      symmetry. now apply count_rows_with.
  - unfold order_distribution.
    apply (proj1 (StronglySorted_map lt fst _)).
    apply StronglySorted_filter.
    apply (proj2 (StronglySorted_map lt fst _)).
    eapply StronglySorted_impl; [apply strictly_nat|].
    apply (sort_index_strictly Nat.eqb Nat.leb), value_counts_NoDup.
Qed.

(** Customer 100 has three rows in two invoices: its order count is 2,
    not 3; the row without customer is counted nowhere. *)
Lemma order_distribution_spec_witness :
  customer_orders invoices_view = [(100%Z, 2%nat); (101%Z, 1%nat)] /\
  order_distribution invoices_view = [(1%nat, 1%nat); (2%nat, 1%nat)] /\
  distinct_invoices invoices_view
                    (fun r : Row => CustomerID r = Some 100%Z) 2.
Proof.
  split; [reflexivity|]. split; [reflexivity|].
  apply (proj1 (proj1 (order_distribution_spec invoices_view) 100%Z 2%nat)).
  left. reflexivity.
Defined.

(** * Further properties of the pipeline *)

(** ** Cleaning *)

Lemma to_datetime_In (raw : list (Txn DateCell)) (df : list (Txn Timestamp))
      (r : Txn DateCell) (t : Timestamp) :
  to_datetime raw = Ok df -> In r raw -> InvoiceDate r = Parses t ->
  In (set_InvoiceDate r t) df.
Proof.
  revert df. induction raw as [|x raw IH]; simpl; intros df H Hr E; [tauto|].
  destruct (InvoiceDate x) eqn:Ex; [|discriminate].
  destruct (to_datetime raw) as [rest|]; simpl in H; [|discriminate].
  injection H as <-. destruct Hr as [->|Hr].
  - left. congruence.
  - right. eauto.
Qed.

Lemma to_datetime_length (raw : list (Txn DateCell))
      (df : list (Txn Timestamp)) :
  to_datetime raw = Ok df -> length df = length raw.
Proof.
  revert df. induction raw as [|x raw IH]; simpl; intros df H.
  - now injection H as <-.
  - destruct (InvoiceDate x); [|discriminate].
    destruct (to_datetime raw) as [rest|]; simpl in H; [|discriminate].
    injection H as <-. simpl. f_equal. auto.
Qed.

(** Dates are parsed before any row is dropped (line 41 precedes lines
    42-44): a date that does not parse fails the cleaning, with the date
    error and no dataset, even when it stands in a row that the filters
    of lines 42-44 would have removed. *)
Theorem clean_fails_on_bad_date (raw : list (Txn DateCell))
        (r : Txn DateCell) :
  In r raw -> InvoiceDate r = Unparseable -> clean raw = Raise DateParseError.
Proof.
  intros Hr Er. unfold clean.
  destruct (to_datetime raw) as [df|e] eqn:E; simpl.
  - exfalso. clear - E Hr Er. revert df E.
    induction raw as [|x raw IH]; simpl; intros df E; [tauto|].
    destruct Hr as [->|Hr]; [now rewrite Er in E|].
    destruct (InvoiceDate x); [|discriminate].
    destruct (to_datetime raw); simpl in E; [|discriminate]. eauto.
  - apply to_datetime_raises in E as [-> _]. reflexivity.
Qed.

(** One sound row and one return (Quantity -1) whose date does not
    parse: the return alone makes the whole load fail. *)
Lemma clean_fails_on_bad_date_witness :
  (0 <? (-1))%Z = false /\
  clean [mkTxn (Some "1"%string) None (Some "mug"%string) 5
               (Parses (at_noon 2011 1 5)) 2 None "UK"%string;
         mkTxn (Some "C1"%string) None None (-1) Unparseable 0 None
               "UK"%string]
  = Raise DateParseError.
Proof.
  split; [reflexivity|].
  apply (clean_fails_on_bad_date
           _ (mkTxn (Some "C1"%string) None None (-1) Unparseable 0 None
                    "UK"%string)).
  - right. left. reflexivity.
  - reflexivity.
Defined.

(** Cleaning loses no valid row: a row of the file with a date that
    parses, Quantity > 0, UnitPrice > 0 and a Description is in the
    cleaned dataset, with its four columns added; and the cleaned
    dataset has no more rows than the file. *)
Theorem clean_keeps_valid_rows (raw : list (Txn DateCell)) (df : DataFrame)
        (r : Txn DateCell) (t : Timestamp) :
  clean raw = Ok df ->
  In r raw -> InvoiceDate r = Parses t ->
  (0 < Quantity r)%Z -> (0 < UnitPrice r)%Q -> Description r <> None ->
  In (add_columns (set_InvoiceDate r t)) df /\
  (length df <= length raw)%nat.
Proof.
  unfold clean. destruct (to_datetime raw) as [df0|] eqn:E; simpl;
    [|discriminate].
  intros [= <-] Hr Et Hq Hp Hd. split.
  - apply in_map. rewrite !filter_In. simpl. repeat split.
    + eapply to_datetime_In; eauto.
    + now apply Z.ltb_lt.
    + now apply Qpos_iff.
    + destruct (Description r); [reflexivity | congruence].
  - rewrite length_map, <- (to_datetime_length _ _ E).
    eapply Nat.le_trans; [apply filter_length_le|].
    eapply Nat.le_trans; [apply filter_length_le|].
    apply filter_length_le.
Qed.

Lemma clean_keeps_valid_rows_witness :
  In (add_columns
        (set_InvoiceDate
           (mkTxn (Some "1"%string) (Some "A"%string) (Some "mug"%string) 5
                  (Parses (at_noon 2011 1 5)) 2 (Some 100%Z) "UK"%string)
           (at_noon 2011 1 5)))
     example_df /\
  (length example_df <= length example_rows)%nat.
Proof.
  apply (clean_keeps_valid_rows example_rows example_df _ (at_noon 2011 1 5)).
  - reflexivity.
  - left. reflexivity.
  - reflexivity.
  - reflexivity.
  - reflexivity.
  - discriminate.
Defined.

(** ** Laws of the filter *)

(** Applying the same selection again changes nothing. *)
Theorem filtered_df_idempotent (df : DataFrame) (date_range : list date)
        (selected_countries : list string) :
  filtered_df (filtered_df df date_range selected_countries)
              date_range selected_countries
  = filtered_df df date_range selected_countries.
Proof.
  rewrite !filtered_df_keeps, filter_filter. apply filter_ext.
  intros r. apply andb_diag.
Qed.

(** Two selections can be applied in either order, whatever they are;
    and the view never has more rows than the dataset. *)
Theorem filtered_df_commutes (df : DataFrame) (r1 r2 : list date)
        (c1 c2 : list string) :
  filtered_df (filtered_df df r1 c1) r2 c2
  = filtered_df (filtered_df df r2 c2) r1 c1 /\
  (length (filtered_df df r1 c1) <= length df)%nat.
Proof.
  rewrite !filtered_df_keeps, !filter_filter. split.
  - apply filter_ext. intros r. apply andb_comm.
  - apply filter_length_le.
Qed.

(** ** The widgets' values (lines 72-91) *)

Lemma date_leb_trans (a b c : date) :
  date_leb a b = true -> date_leb b c = true -> date_leb a c = true.
Proof. rewrite !date_leb_le. apply date_le_trans. Qed.

Lemma date_leb_total (a b : date) :
  date_leb a b = true \/ date_leb b a = true.
Proof. rewrite !date_leb_le. apply date_le_total. Qed.

Lemma date_min_le (a b : date) :
  date_leb (date_min a b) a = true /\ date_leb (date_min a b) b = true.
Proof.
  unfold date_min. destruct (date_leb a b) eqn:E.
  - split; [apply date_leb_refl | exact E].
  - split; [|apply date_leb_refl].
    destruct (date_leb_total a b); congruence.
Qed.

Lemma date_max_ge (a b : date) :
  date_leb a (date_max a b) = true /\ date_leb b (date_max a b) = true.
Proof.
  unfold date_max. destruct (date_leb a b) eqn:E.
  - split; [exact E | apply date_leb_refl].
  - split; [apply date_leb_refl|].
    destruct (date_leb_total a b); congruence.
Qed.

Lemma fold_date_min_acc (rest : list date) (d : date) :
  date_leb (fold_left date_min rest d) d = true.
Proof.
  revert d. induction rest as [|y rest IH]; simpl; intros d.
  - apply date_leb_refl.
  - eapply date_leb_trans; [apply IH | apply (proj1 (date_min_le d y))].
Qed.

Lemma fold_date_min (rest : list date) (d x : date) :
  In x (d :: rest) -> date_leb (fold_left date_min rest d) x = true.
Proof.
  revert d. induction rest as [|y rest IH]; simpl; intros d H.
  - destruct H as [->|[]]. apply date_leb_refl.
  - destruct H as [->|[->|H]].
    + eapply date_leb_trans;
        [apply fold_date_min_acc | apply (proj1 (date_min_le x y))].
    + eapply date_leb_trans;
        [apply fold_date_min_acc | apply (proj2 (date_min_le d x))].
    + apply IH. now right.
Qed.

Lemma fold_date_max_acc (rest : list date) (d : date) :
  date_leb d (fold_left date_max rest d) = true.
Proof.
  revert d. induction rest as [|y rest IH]; simpl; intros d.
  - apply date_leb_refl.
  - eapply date_leb_trans; [apply (proj1 (date_max_ge d y)) | apply IH].
Qed.

Lemma fold_date_max (rest : list date) (d x : date) :
  In x (d :: rest) -> date_leb x (fold_left date_max rest d) = true.
Proof.
  revert d. induction rest as [|y rest IH]; simpl; intros d H.
  - destruct H as [->|[]]. apply date_leb_refl.
  - destruct H as [->|[->|H]].
    + eapply date_leb_trans;
        [apply (proj1 (date_max_ge x y)) | apply fold_date_max_acc].
    + eapply date_leb_trans;
        [apply (proj2 (date_max_ge d x)) | apply fold_date_max_acc].
    + apply IH. now right.
Qed.

Lemma fold_date_min_In (rest : list date) (d : date) :
  In (fold_left date_min rest d) (d :: rest).
Proof.
  revert d. induction rest as [|y rest IH]; simpl; intros d; auto.
  destruct (IH (date_min d y)) as [E|H]; auto.
  rewrite <- E. unfold date_min. destruct (date_leb d y); auto.
Qed.

Lemma fold_date_max_In (rest : list date) (d : date) :
  In (fold_left date_max rest d) (d :: rest).
Proof.
  revert d. induction rest as [|y rest IH]; simpl; intros d; auto.
  destruct (IH (date_max d y)) as [E|H]; auto.
  rewrite <- E. unfold date_max. destruct (date_leb d y); auto.
Qed.

(** Every row lies between the minimum and the maximum of the Date
    column. *)
Lemma date_bounds (df : DataFrame) (lo hi : date) :
  min_date df = Some lo -> max_date df = Some hi ->
  forall r, In r df ->
            date_leb lo (Date r) = true /\ date_leb (Date r) hi = true.
Proof.
  unfold min_date, max_date, Series_min, Series_max.
  destruct df as [|r0 df]; [discriminate|]. cbn [map].
  intros [= <-] [= <-] r Hr. apply (in_map Date) in Hr. split.
  - now apply fold_date_min.
  - now apply fold_date_max.
Qed.

Lemma min_date_attained (df : DataFrame) (lo : date) :
  min_date df = Some lo -> exists r, In r df /\ Date r = lo.
Proof.
  unfold min_date, Series_min. destruct df as [|r0 df]; [discriminate|].
  cbn [map]. intros [= <-].
  pose proof (fold_date_min_In (map Date df) (Date r0)) as H.
  change (Date r0 :: map Date df) with (map Date (r0 :: df)) in H.
  apply in_map_iff in H as (r & E & Hr). eauto.
Qed.

Lemma max_date_attained (df : DataFrame) (hi : date) :
  max_date df = Some hi -> exists r, In r df /\ Date r = hi.
Proof.
  unfold max_date, Series_max. destruct df as [|r0 df]; [discriminate|].
  cbn [map]. intros [= <-].
  pose proof (fold_date_max_In (map Date df) (Date r0)) as H.
  change (Date r0 :: map Date df) with (map Date (r0 :: df)) in H.
  apply in_map_iff in H as (r & E & Hr). eauto.
Qed.

Lemma initial_range_no_restriction (df : DataFrame) (lo hi : date)
      (selected_countries : list string) :
  min_date df = Some lo -> max_date df = Some hi ->
  filtered_df df [lo; hi] selected_countries
  = filtered_df df [] selected_countries.
Proof.
  intros Hlo Hhi. rewrite !filtered_df_keeps. apply filter_ext_in.
  intros r Hr. unfold keeps, date_ok.
  destruct (date_bounds df lo hi Hlo Hhi r Hr) as [-> ->]. reflexivity.
Qed.

(** The date widget starts at (min_date, max_date).  Both are dates of
    rows of the dataset, every row lies between them, and so the initial
    date range removes no row, whatever the countries selected. *)
Theorem initial_date_range_keeps_all (df : DataFrame) (lo hi : date)
        (selected_countries : list string) :
  min_date df = Some lo -> max_date df = Some hi ->
  (exists r, In r df /\ Date r = lo) /\
  (exists r, In r df /\ Date r = hi) /\
  (forall r, In r df -> date_le lo (Date r) /\ date_le (Date r) hi) /\
  filtered_df df [lo; hi] selected_countries
  = filtered_df df [] selected_countries.
Proof.
  intros Hlo Hhi. split; [|split; [|split]].
  - now apply min_date_attained.
  - now apply max_date_attained.
  - intros r Hr. destruct (date_bounds df lo hi Hlo Hhi r Hr) as [L U].
    split; now apply date_leb_le.
  - now apply initial_range_no_restriction.
Qed.

Lemma initial_date_range_keeps_all_witness :
  filtered_df example_df [mkDate 2011 1 5; mkDate 2011 2 1] ["FR"%string]
  = filtered_df example_df [] ["FR"%string].
Proof.
  apply (initial_date_range_keeps_all example_df (mkDate 2011 1 5)
                                      (mkDate 2011 2 1) ["FR"%string]);
    reflexivity.
Defined.

Lemma insort_perm (x : string) (l : list string) :
  Permutation (insort x l) (x :: l).
Proof.
  induction l as [|y l IH]; simpl; auto.
  destruct (String.leb x y); auto. rewrite IH. apply perm_swap.
Qed.

Lemma sorted_perm (l : list string) : Permutation (sorted l) l.
Proof.
  induction l as [|x l IH]; simpl; auto.
  rewrite insort_perm. now constructor.
Qed.

Lemma insort_sorted (x : string) (l : list string) :
  StronglySorted (fun a b => String.leb a b = true) l ->
  StronglySorted (fun a b => String.leb a b = true) (insort x l).
Proof.
  induction 1 as [|y l S IH F]; simpl.
  - repeat constructor.
  - destruct (String.leb x y) eqn:L.
    + constructor; [constructor; auto|]. constructor; auto.
      rewrite Forall_forall in *. intros z Hz.
      eapply (kleb_trans (kleb := String.leb)); eauto.
    + constructor; auto. rewrite Forall_forall in *. intros z Hz.
      eapply Permutation_in in Hz; [|apply insort_perm].
      destruct Hz as [<-|Hz]; auto.
      destruct (String.leb_total y x); congruence.
Qed.

Lemma sorted_sorted (l : list string) :
  StronglySorted (fun a b => String.leb a b = true) (sorted l).
Proof. induction l; simpl; [constructor | now apply insort_sorted]. Qed.

Lemma leb_NoDup_ltb (l : list string) :
  StronglySorted (fun a b => String.leb a b = true) l -> NoDup l ->
  StronglySorted (fun a b => String.ltb a b = true) l.
Proof.
  induction 1 as [|a l S IH F]; intros ND; [constructor|].
  inversion ND as [|? ? Ha ND']; subst. constructor; auto.
  rewrite Forall_forall in *. intros b Hb.
  apply strictly_string. unfold strictly. apply not_true_iff_false.
  intros L. apply Ha. now rewrite (String.leb_antisym _ _ (F b Hb) L).
Qed.

Lemma all_countries_In (df : DataFrame) (c : string) :
  In c (all_countries df) <-> exists r : Row, In r df /\ Country r = c.
Proof.
  unfold all_countries. split.
  - intros H. eapply Permutation_in in H; [|apply sorted_perm].
    apply (proj1 (unique_In String.eqb String.eqb_eq _ _)) in H.
    apply in_map_iff in H as (r & ? & ?). eauto.
  - intros (r & Hr & <-).
    eapply Permutation_in; [apply Permutation_sym, sorted_perm|].
    apply (proj2 (unique_In String.eqb String.eqb_eq _ _)).
    apply in_map_iff. eauto.
Qed.

Lemma all_countries_NoDup (df : DataFrame) : NoDup (all_countries df).
Proof.
  eapply Permutation_NoDup; [apply Permutation_sym, sorted_perm|].
  apply (unique_NoDup String.eqb String.eqb_eq).
Qed.

(** The country options (line 83) list each country of the dataset
    once, in ascending order. *)
Theorem all_countries_spec (df : DataFrame) :
  (forall c, In c (all_countries df) <->
             exists r : Row, In r df /\ Country r = c) /\
  NoDup (all_countries df) /\
  StronglySorted (fun a b => String.ltb a b = true) (all_countries df).
Proof.
  split; [|split].
  - apply all_countries_In.
  - apply all_countries_NoDup.
  - apply leb_NoDup_ltb.
    + unfold all_countries. apply sorted_sorted.
    + apply all_countries_NoDup.
Qed.

Lemma default_countries_incl (all : list string) :
  incl (default_countries all) all.
Proof.
  intros c Hc. unfold default_countries in Hc. apply filter_In in Hc.
  now apply isin_In.
Qed.

Lemma multiselect_default_incl (df : DataFrame) :
  incl (multiselect_default df) (all_countries df).
Proof.
  unfold multiselect_default.
  pose proof (default_countries_incl (all_countries df)) as D.
  destruct (default_countries (all_countries df)); auto.
  intros c Hc. eapply firstn_In, Hc.
Qed.

Lemma multiselect_default_nil (df : DataFrame) :
  multiselect_default df = [] <-> df = [].
Proof.
  unfold multiselect_default.
  destruct (default_countries (all_countries df)) as [|c l] eqn:E.
  - split.
    + intros H. destruct df as [|r df]; auto. exfalso.
      assert (Hc : In (Country r) (all_countries (r :: df))).
      { apply all_countries_In. exists r. split; [now left | reflexivity]. }
      destruct (all_countries (r :: df)); [tauto | discriminate].
    + intros ->. reflexivity.
  - split; [discriminate|]. intros ->. discriminate E.
Qed.

(** The default of the country multiselect (lines 84-90) is made of
    options only, without repetition, has at most three countries, and
    is empty only when the dataset has no row. *)
Theorem multiselect_default_spec (df : DataFrame) :
  incl (multiselect_default df) (all_countries df) /\
  NoDup (multiselect_default df) /\
  (length (multiselect_default df) <= 3)%nat /\
  (multiselect_default df = [] <-> df = []).
Proof.
  split; [apply multiselect_default_incl|].
  split; [|split; [|apply multiselect_default_nil]].
  - unfold multiselect_default.
    assert (N : NoDup (default_countries (all_countries df))).
    { unfold default_countries. apply NoDup_filter.
      repeat constructor; simpl; intuition discriminate. }
    destruct (default_countries (all_countries df)); auto.
    apply NoDup_firstn, all_countries_NoDup.
  - unfold multiselect_default.
    assert (L : (length (default_countries (all_countries df)) <= 3)%nat).
    { unfold default_countries. apply (filter_length_le _ [_; _; _]). }
    destruct (default_countries (all_countries df)); auto.
    apply firstn_le_length.
Qed.

(** The first run: the initial values of the two widgets are values the
    widgets accept, and with them the filter keeps at least one row of a
    dataset that has at least one row, so that the no-data branch of
    line 116 is not taken. *)
Theorem first_view_not_empty (df : DataFrame) :
  df <> [] ->
  exists lo hi,
    min_date df = Some lo /\ max_date df = Some hi /\
    enterable df [lo; hi] (multiselect_default df) = true /\
    filtered_df df [lo; hi] (multiselect_default df) <> [].
Proof.
  intros NE.
  destruct (min_date df) as [lo|] eqn:Elo;
    [|destruct df; [tauto | discriminate]].
  destruct (max_date df) as [hi|] eqn:Ehi;
    [|destruct df; [tauto | discriminate]].
  exists lo, hi. split; [reflexivity|]. split; [reflexivity|].
  pose proof (multiselect_default_incl df) as I.
  pose proof (multiselect_default_nil df) as Z.
  pose proof (date_bounds df lo hi Elo Ehi) as B.
  split.
  - unfold enterable. rewrite Elo, Ehi. cbn [length Nat.leb forallb andb].
    destruct (min_date_attained df lo Elo) as (rl & Hl & <-).
    destruct (max_date_attained df hi Ehi) as (rh & Hh & <-).
    rewrite (proj2 (B rl Hl)), !date_leb_refl.
    cbn [andb]. apply forallb_forall. intros c Hc. apply isin_In. auto.
  - destruct (multiselect_default df) as [|c cs] eqn:Ec; [tauto|].
    destruct (proj1 (all_countries_In df c) (I c (or_introl eq_refl)))
      as (r & Hr & Er).
    assert (V : In r (filtered_df df [lo; hi] (c :: cs))).
    { rewrite (initial_range_no_restriction df lo hi (c :: cs) Elo Ehi).
      rewrite filtered_df_keeps. apply filter_In. split; auto.
      apply keeps_spec. split; [discriminate|]. right. left. auto. }
    intros E. now rewrite E in V.
Qed.

Lemma first_view_not_empty_witness :
  exists lo hi,
    min_date example_df = Some lo /\ max_date example_df = Some hi /\
    enterable example_df [lo; hi] (multiselect_default example_df) = true /\
    filtered_df example_df [lo; hi] (multiselect_default example_df) <> [].
Proof.
  apply (first_view_not_empty example_df). discriminate.
Defined.

(** ** Totals *)

Lemma Qsum_total (col : list Q) : (Qsum col == Qtotal col)%Q.
Proof. unfold Qsum, Qtotal. rewrite fold_left_Qplus. ring. Qed.

Lemma Qtotal_nonneg (l : list Q) :
  (forall x, In x l -> (0 <= x)%Q) -> (0 <= Qtotal l)%Q.
Proof.
  induction l as [|x l IH]; simpl; intros H; [apply Qle_refl|].
  fold (Qtotal l). rewrite <- (Qplus_0_r 0).
  apply Qplus_le_compat; auto.
Qed.

Lemma cleaned_row_TotalPrice_pos (r : Row) :
  cleaned_row r -> (0 < TotalPrice r)%Q.
Proof.
  intros (Hq & Hp & _ & ->). apply Qmult_lt_0_compat; auto.
  unfold Qlt. simpl. lia.
Qed.

(** ** Row counts of the charts *)

Lemma group_keys_length {K} (keqb kleb : K -> K -> bool)
      {KO : KeyOrder keqb kleb} (col : list (option K)) :
  length (group_keys keqb kleb col) = nunique keqb col.
Proof.
  symmetry. apply (nunique_card keqb (keqb_eq (keqb := keqb))).
  - apply (strictly_NoDup keqb kleb), (group_keys_sorted keqb kleb).
  - intros k. apply (group_keys_In keqb kleb).
Qed.

Lemma agg_groupby_length {K V} (keqb kleb : K -> K -> bool)
      {KO : KeyOrder keqb kleb} (key : Row -> option K)
      (f : DataFrame -> V) (view : DataFrame) :
  length (agg f (groupby keqb kleb key view)) = nunique keqb (map key view).
Proof.
  unfold agg, groupby. rewrite !length_map.
  apply (group_keys_length keqb kleb).
Qed.

Lemma head_sort_length {R M} (measure : R -> M) (mleb : M -> M -> bool)
      (first : R -> R -> bool) (n : nat) (t : list R) :
  length (head n (sort_values_desc measure mleb first t))
  = Nat.min n (length t).
Proof.
  unfold head. rewrite length_firstn.
  now rewrite (Permutation_length
                 (sort_values_desc_perm measure mleb first t)).
Qed.

Lemma country_stats_length (ties : TieOrder) (view : DataFrame) :
  length (country_stats ties view)
  = Nat.min 10 (Countries (sidebar_info view)).
Proof.
  unfold country_stats. rewrite head_sort_length.
  unfold by_Country. now rewrite (agg_groupby_length String.eqb String.leb).
Qed.

Lemma top5_length (ties : TieOrder) (view : DataFrame) :
  length (top5 ties view)
  = Nat.min 5 (Countries (sidebar_info view)).
Proof.
  unfold top5, head. rewrite length_firstn, country_stats_length. lia.
Qed.

Lemma top_products_qty_length (ties : TieOrder) (view : DataFrame) :
  length (top_products_qty ties view)
  = Nat.min 10 (Products (sidebar_info view)).
Proof.
  unfold top_products_qty. rewrite head_sort_length.
  unfold by_Description.
  now rewrite (agg_groupby_length String.eqb String.leb).
Qed.

Lemma top_products_rev_length (ties : TieOrder) (view : DataFrame) :
  length (top_products_rev ties view)
  = Nat.min 10 (Products (sidebar_info view)).
Proof.
  unfold top_products_rev. rewrite head_sort_length.
  unfold by_Description.
  now rewrite (agg_groupby_length String.eqb String.leb).
Qed.

(** The charts have as many rows as the sidebar and the KPIs announce:
    the country table one per country of the view up to ten, the country
    share up to five, each product table one per product up to ten, and
    the per-customer table one per customer. *)
Theorem chart_rows_match_sidebar (ties : TieOrder) (view : DataFrame) :
  length (country_stats ties view)
  = Nat.min 10 (Countries (sidebar_info view)) /\
  length (top5 ties view) = Nat.min 5 (Countries (sidebar_info view)) /\
  length (top_products_qty ties view)
  = Nat.min 10 (Products (sidebar_info view)) /\
  length (top_products_rev ties view)
  = Nat.min 10 (Products (sidebar_info view)) /\
  length (customer_orders view) = total_customers view /\
  SidebarOrders (sidebar_info view) = total_orders view.
Proof.
  split; [apply country_stats_length|].
  split; [apply top5_length|].
  split; [apply top_products_qty_length|].
  split; [apply top_products_rev_length|].
  split; [|reflexivity].
  unfold customer_orders, by_CustomerID.
  now rewrite (agg_groupby_length Z.eqb Z.leb).
Qed.

Lemma nunique_pos {A} (eqb : A -> A -> bool)
      (eqb_eq : forall a b, eqb a b = true <-> a = b)
      (col : list (option A)) (a : A) :
  In (Some a) col -> (0 < nunique eqb col)%nat.
Proof.
  intros H. destruct (nunique eqb col) eqn:E; [|lia].
  exfalso. exact (proj1 (nunique_zero eqb eqb_eq col) E a H).
Qed.

Lemma Qtotal_pos (l : list Q) :
  l <> [] -> (forall x, In x l -> (0 < x)%Q) -> (0 < Qtotal l)%Q.
Proof.
  destruct l as [|x l]; [tauto|]. intros _ H. simpl. fold (Qtotal l).
  rewrite <- (Qplus_0_r 0). apply Qplus_lt_le_compat.
  - apply H. now left.
  - apply Qtotal_nonneg. intros y Hy. apply Qlt_le_weak, H. now right.
Qed.

Lemma load_data_cleaned (fs : FileSystem) (df : DataFrame) :
  load_data fs = Ok df -> forall r, In r df -> cleaned_row r.
Proof.
  rewrite load_data_cases. intros H.
  destruct (fs "data/data.csv"%string);
    try destruct (fs "data/online_retail.csv"%string); try discriminate;
    eauto using clean_rows.
Qed.

(** Whenever the dashboard is rendered, the total revenue is positive
    and the monthly, country, product and hourly charts each have at
    least one row: the no-data check of line 116 is the only place where
    an empty chart could have come from. *)
Theorem rendered_charts_nonempty (ties : TieOrder) (fs : FileSystem)
        (date_range : list date) (selected_countries : list string)
        (d : Dashboard) :
  app ties fs date_range selected_countries = Rendered d ->
  (0 < kpi_total_revenue d)%Q /\
  tbl_monthly_revenue d <> [] /\ tbl_monthly_orders d <> [] /\
  tbl_country_stats d <> [] /\ tbl_top5 d <> [] /\
  tbl_top_products_qty d <> [] /\ tbl_top_products_rev d <> [] /\
  tbl_hourly d <> [].
Proof.
  unfold app. destruct (load_data fs) as [df|] eqn:L; [|discriminate].
  destruct (min_date df); [|discriminate].
  destruct (max_date df); [|discriminate].
  set (view := filtered_df df date_range selected_countries).
  destruct (length view =? 0)%nat eqn:E; [discriminate|].
  intros [= <-]. unfold render.
  cbn [kpi_total_revenue tbl_monthly_revenue tbl_monthly_orders
       tbl_country_stats tbl_top5 tbl_top_products_qty tbl_top_products_rev
       tbl_hourly].
  assert (CL : forall r, In r view -> cleaned_row r).
  { intros r Hr. apply (load_data_cleaned fs df L).
    eapply filtered_df_incl, Hr. }
  apply Nat.eqb_neq in E.
  destruct view as [|r0 v] eqn:Ev; [simpl in E; lia|]. clear E.
  assert (H0 : In r0 (r0 :: v)) by now left.
  assert (D : exists s, Description r0 = Some s).
  { destruct (CL r0 H0) as (_ & _ & Hd & _).
    destruct (Description r0); [eauto | tauto]. }
  destruct D as [s D].
  assert (NZ : forall l : list (string * Q), (0 < length l)%nat -> l <> [])
    by (intros [|] ?; simpl in *; [lia | discriminate]).
  assert (P : forall {A B} (l : list (A * B)), (0 < length l)%nat -> l <> [])
    by (intros ? ? [|] ?; simpl in *; [lia | discriminate]).
  pose proof (country_stats_length ties (r0 :: v)) as C1.
  pose proof (top5_length ties (r0 :: v)) as C2.
  pose proof (top_products_qty_length ties (r0 :: v)) as C3.
  pose proof (top_products_rev_length ties (r0 :: v)) as C4.
  assert (NC : (0 < Countries (sidebar_info (r0 :: v)))%nat).
  { apply (nunique_pos String.eqb String.eqb_eq _ (Country r0)). now left. }
  assert (NP : (0 < Products (sidebar_info (r0 :: v)))%nat).
  { apply (nunique_pos String.eqb String.eqb_eq _ s). left. exact D. }
  repeat split.
  - unfold total_revenue. rewrite Qsum_total. apply Qtotal_pos.
    + discriminate.
    + intros x Hx. apply in_map_iff in Hx as (r & <- & Hr).
      apply cleaned_row_TotalPrice_pos. auto.
  - apply P. unfold monthly_revenue, by_YearMonth.
    rewrite (agg_groupby_length String.eqb String.leb).
    apply (nunique_pos String.eqb String.eqb_eq _ (YearMonth r0)). now left.
  - apply P. unfold monthly_orders, by_YearMonth.
    rewrite (agg_groupby_length String.eqb String.leb).
    apply (nunique_pos String.eqb String.eqb_eq _ (YearMonth r0)). now left.
  - apply P. rewrite C1. lia.
  - apply P. rewrite C2. lia.
  - apply P. rewrite C3. lia.
  - apply P. rewrite C4. lia.
  - apply P. unfold hourly, by_Hour.
    rewrite (agg_groupby_length Z.eqb Z.leb).
    apply (nunique_pos Z.eqb Z.eqb_eq _ (Hour r0)). now left.
Qed.

Lemma rendered_charts_nonempty_witness :
  let d := render key_order
                  (filtered_df example_df first_weeks ["UK"%string]) in
  (0 < kpi_total_revenue d)%Q /\
  tbl_monthly_revenue d <> [] /\ tbl_monthly_orders d <> [] /\
  tbl_country_stats d <> [] /\ tbl_top5 d <> [] /\
  tbl_top_products_qty d <> [] /\ tbl_top_products_rev d <> [] /\
  tbl_hourly d <> [].
Proof.
  apply (rendered_charts_nonempty key_order example_fs first_weeks
                                  ["UK"%string]).
  reflexivity.
Defined.

(** ** Bounds on the counts *)

Lemma unique_length_le {A} (eqb : A -> A -> bool) (col : list A) :
  (length (unique eqb col) <= length col)%nat.
Proof.
  induction col as [|a col IH]; simpl; auto.
  apply le_n_S. eapply Nat.le_trans; [apply filter_length_le | exact IH].
Qed.

Lemma dropna_length_le {A} (col : list (option A)) :
  (length (dropna col) <= length col)%nat.
Proof. induction col as [|[a|] col IH]; simpl; lia. Qed.

Lemma nunique_le_length {A} (eqb : A -> A -> bool) (col : list (option A)) :
  (nunique eqb col <= length col)%nat.
Proof.
  unfold nunique. eapply Nat.le_trans; [apply unique_length_le|].
  apply dropna_length_le.
Qed.

Lemma nunique_mono {A} (eqb : A -> A -> bool)
      (eqb_eq : forall a b, eqb a b = true <-> a = b)
      (col1 col2 : list (option A)) :
  (forall a, In (Some a) col1 -> In (Some a) col2) ->
  (nunique eqb col1 <= nunique eqb col2)%nat.
Proof.
  intros H. unfold nunique. apply NoDup_incl_length.
  - apply (unique_NoDup eqb eqb_eq).
  - intros a Ha. apply (proj2 (unique_In eqb eqb_eq _ _)), dropna_In, H.
    apply dropna_In. now apply (proj1 (unique_In eqb eqb_eq _ _)).
Qed.

Lemma orders_of_filter (p : Row -> bool) (view : DataFrame) :
  (orders_of (filter p view) <= total_orders view)%nat.
Proof.
  apply (nunique_mono String.eqb String.eqb_eq). intros a Ha.
  apply in_map_iff in Ha as (r & E & Hr). apply filter_In in Hr as [Hr _].
  apply in_map_iff. eauto.
Qed.

(** No count exceeds the number of rows, and no month, country or hour
    has more orders than the view as a whole. *)
Theorem counts_bounded (ties : TieOrder) (view : DataFrame) :
  (total_orders view <= length view)%nat /\
  (total_customers view <= length view)%nat /\
  (forall m n, In (m, n) (monthly_orders view) -> (n <= total_orders view)%nat) /\
  (forall h n, In (h, n) (hourly view) -> (n <= total_orders view)%nat) /\
  (forall row, In row (country_stats ties view) ->
               (Orders row <= total_orders view)%nat).
Proof.
  split; [|split; [|split; [|split]]].
  - unfold total_orders. rewrite <- (length_map (fun r : Row => InvoiceNo r)).
    apply nunique_le_length.
  - unfold total_customers.
    rewrite <- (length_map (fun r : Row => CustomerID r)).
    apply nunique_le_length.
  - intros m n H. apply (agg_groupby_In String.eqb String.leb) in H as [_ ->].
    apply orders_of_filter.
  - intros h n H. apply (agg_groupby_In Z.eqb Z.leb) in H as [_ ->].
    apply orders_of_filter.
  - intros [c [rev n]] H. unfold country_stats, head in H.
    apply firstn_In in H.
    eapply Permutation_in in H; [|apply sort_values_desc_perm].
    apply (agg_groupby_In String.eqb String.leb) in H as [_ E].
    injection E as _ ->. unfold Orders. cbn [snd]. apply orders_of_filter.
Qed.

(** Filtering can only lower the counts: the view has no more rows,
    orders or customers than the dataset. *)
Theorem filtering_lowers_counts (df : DataFrame) (date_range : list date)
        (selected_countries : list string) :
  let view := filtered_df df date_range selected_countries in
  (length view <= length df)%nat /\
  (total_orders view <= total_orders df)%nat /\
  (total_customers view <= total_customers df)%nat.
Proof.
  intros view. subst view. rewrite filtered_df_keeps. repeat split.
  - apply filter_length_le.
  - apply orders_of_filter.
  - apply (nunique_mono Z.eqb Z.eqb_eq). intros a Ha.
    apply in_map_iff in Ha as (r & E & Hr). apply filter_In in Hr as [Hr _].
    apply in_map_iff. eauto.
Qed.

(** ** int64 sums *)

Lemma wrap64_small (z : Z) :
  (- 2 ^ 63 <= z < 2 ^ 63)%Z -> wrap64 z = z.
Proof.
  intros H. unfold wrap64. rewrite Z.mod_small; lia.
Qed.

Lemma wrap64_range (z : Z) : (- 2 ^ 63 <= wrap64 z < 2 ^ 63)%Z.
Proof.
  unfold wrap64.
  pose proof (Z.mod_pos_bound (z + 2 ^ 63) (2 ^ 64) ltac:(lia)). lia.
Qed.

Lemma int64_sum_acc (col : list Z) (acc : Z) :
  (forall q, In q col -> 0 <= q)%Z -> (0 <= acc)%Z ->
  (acc + fold_right Z.add 0 col < 2 ^ 63)%Z ->
  fold_left (fun a q => wrap64 (a + q)) col acc
  = (acc + fold_right Z.add 0 col)%Z.
Proof.
  revert acc. induction col as [|q col IH]; simpl; intros acc H A B; [lia|].
  assert (Hq : (0 <= q)%Z) by auto.
  assert (S : (0 <= fold_right Z.add 0 col)%Z).
  { clear - H. induction col as [|x col IH]; simpl; [lia|].
    assert (0 <= x)%Z by (apply H; simpl; auto).
    assert (0 <= fold_right Z.add 0 col)%Z
      by (apply IH; intros; apply H; simpl in *; tauto).
    lia. }
  rewrite wrap64_small by lia. rewrite IH; auto; lia.
Qed.

(** A quantity total is always an int64; it is the exact sum of the
    quantities when these are non-negative, as in a cleaned dataset,
    and their sum is below 2^63.  Beyond that the total wraps around. *)
Theorem int64_sum_exact (col : list Z) :
  (forall q, In q col -> 0 <= q)%Z ->
  (fold_right Z.add 0 col < 2 ^ 63)%Z ->
  int64_sum col = fold_right Z.add 0%Z col /\
  (- 2 ^ 63 <= int64_sum col < 2 ^ 63)%Z.
Proof.
  intros H B.
  assert (E : int64_sum col = fold_right Z.add 0%Z col).
  { unfold int64_sum. rewrite int64_sum_acc; auto; lia. }
  split; auto. rewrite E.
  assert (0 <= fold_right Z.add 0 col)%Z; [|lia].
  clear - H. induction col as [|x col IH]; simpl; [lia|].
  assert (0 <= x)%Z by (apply H; simpl; auto).
  assert (0 <= fold_right Z.add 0 col)%Z
    by (apply IH; intros; apply H; simpl in *; tauto).
  lia.
Qed.

Lemma int64_sum_exact_witness :
  int64_sum [5; 2]%Z = 7%Z /\ (- 2 ^ 63 <= int64_sum [5; 2] < 2 ^ 63)%Z.
Proof.
  apply (int64_sum_exact [5; 2]%Z).
  - simpl. intros q [<-|[<-|[]]]; lia.
  - simpl. lia.
Defined.

Example int64_sum_wraps :
  int64_sum [9223372036854775807; 1]%Z = (-9223372036854775808)%Z.
Proof. reflexivity. Qed.

(** ** The text of a month *)

Lemma digit_compare (a b : Z) :
  Ascii.compare (digit a) (digit b) = (a mod 10 ?= b mod 10)%Z.
Proof.
  unfold Ascii.compare, digit, ascii_of_nat.
  pose proof (Z.mod_pos_bound a 10 ltac:(lia)) as Ha.
  pose proof (Z.mod_pos_bound b 10 ltac:(lia)) as Hb.
  rewrite !N_ascii_embedding by lia.
  destruct (Z.compare_spec (a mod 10) (b mod 10)) as [E|E|E].
  - rewrite E. apply N.compare_refl.
  - apply N.compare_lt_iff. lia.
  - apply N.compare_gt_iff. lia.
Qed.

(** The YearMonth texts order as the months do: for timestamps with a
    four-digit year, comparing the texts of two months is comparing
    (year, month).  Hence the ascending key order of the monthly tables
    is the chronological one, and two timestamps get the same text
    exactly when they fall in the same month. *)
Theorem period_M_str_chronological (a b : Timestamp) :
  four_digit_year a -> four_digit_year b ->
  String.compare (period_M_str a) (period_M_str b) = month_compare a b /\
  (period_M_str a = period_M_str b <->
   ts_year a = ts_year b /\ ts_month a = ts_month b).
Proof.
  intros [Ya Ma] [Yb Mb].
  assert (C : String.compare (period_M_str a) (period_M_str b)
              = month_compare a b).
  { unfold period_M_str, pad4, pad2, month_compare.
    cbn [append String.compare]. rewrite !digit_compare.
    change (Ascii.compare "-" "-") with Eq. cbv iota.
    destruct (Z.compare_spec (ts_year a) (ts_year b));
      destruct (Z.compare_spec (ts_month a) (ts_month b));
      repeat match goal with
             | |- context [(?x ?= ?y)%Z] => destruct (Z.compare_spec x y)
             end;
      try reflexivity; exfalso; Z.div_mod_to_equations; lia. }
  split; [exact C|]. split.
  - intros E. rewrite E in C.
    assert (R : String.compare (period_M_str b) (period_M_str b) = Eq).
    { generalize (period_M_str b). intros s. induction s; simpl; auto.
      now rewrite ascii_compare_refl. }
    rewrite R in C. unfold month_compare in C.
    destruct (Z.compare_spec (ts_year b) (ts_year b));
      destruct (Z.compare_spec (ts_year a) (ts_year b)); try discriminate;
      try lia.
    destruct (Z.compare_spec (ts_month a) (ts_month b)); try discriminate.
    auto.
  - intros [Ey Em]. apply String.compare_eq_iff. rewrite C.
    unfold month_compare. rewrite Ey, Em, !Z.compare_refl. reflexivity.
Qed.

Lemma period_M_str_chronological_witness :
  String.compare (period_M_str (at_noon 2010 12 1))
                 (period_M_str (at_noon 2011 1 5))
  = month_compare (at_noon 2010 12 1) (at_noon 2011 1 5) /\
  (period_M_str (at_noon 2010 12 1) = period_M_str (at_noon 2011 1 5) <->
   ts_year (at_noon 2010 12 1) = ts_year (at_noon 2011 1 5) /\
   ts_month (at_noon 2010 12 1) = ts_month (at_noon 2011 1 5)).
Proof.
  apply (period_M_str_chronological (at_noon 2010 12 1) (at_noon 2011 1 5));
    unfold four_digit_year; simpl; lia.
Defined.

(** ** The customers of the order distribution *)

Lemma filter_perm {A} (p : A -> bool) (l l' : list A) :
  Permutation l l' -> Permutation (filter p l) (filter p l').
Proof.
  induction 1 as [|x l l' P IH|x y l|l l' l'' P1 IH1 P2 IH2]; simpl; auto.
  - destruct (p x); auto.
  - destruct (p x), (p y); auto. apply perm_swap.
  - eapply Permutation_trans; eauto.
Qed.

Lemma filter_map_comm {A B} (p : B -> bool) (g : A -> B) (l : list A) :
  filter p (map g l) = map g (filter (fun x => p (g x)) l).
Proof.
  induction l as [|x l IH]; simpl; auto.
  destruct (p (g x)); simpl; congruence.
Qed.

Lemma natsum_perm (l l' : list nat) :
  Permutation l l' -> fold_right Nat.add 0%nat l = fold_right Nat.add 0%nat l'.
Proof.
  induction 1 as [|x l l' P IH|x y l|l l' l'' P1 IH1 P2 IH2]; simpl; lia.
Qed.

Lemma count_of_cons_sum (vs col : list nat) (x : nat) :
  NoDup vs ->
  fold_right Nat.add 0%nat (map (fun v => count_of v (x :: col)) vs)
  = ((if existsb (Nat.eqb x) vs then 1 else 0)
     + fold_right Nat.add 0%nat (map (fun v => count_of v col) vs))%nat.
Proof.
  induction 1 as [|v vs Hv ND IH]; [reflexivity|].
  cbn [map fold_right existsb]. rewrite IH.
  unfold count_of at 1. cbn [filter]. fold (count_of v col).
  rewrite (Nat.eqb_sym x v).
  destruct (Nat.eqb v x) eqn:E; cbn [orb length];
    change (length (filter (Nat.eqb v) col)) with (count_of v col).
  - apply Nat.eqb_eq in E. subst x.
    assert (X : existsb (Nat.eqb v) vs = false).
    { apply not_true_iff_false. rewrite existsb_exists.
      intros (y & Hy & Ey). apply Nat.eqb_eq in Ey. now subst. }
    rewrite X. lia.
  - lia.
Qed.

Lemma count_of_sum (vs col : list nat) :
  NoDup vs ->
  fold_right Nat.add 0%nat (map (fun v => count_of v col) vs)
  = length (filter (fun x => existsb (Nat.eqb x) vs) col).
Proof.
  intros ND. induction col as [|x col IH].
  - induction vs as [|v vs IHv]; [reflexivity|].
    inversion ND; subst. simpl. auto.
  - rewrite (count_of_cons_sum vs col x ND), IH. cbn [filter].
    destruct (existsb (Nat.eqb x) vs); reflexivity.
Qed.

(** The Customers column of the order distribution adds up to the number
    of customers with at most 20 orders, which is at most the number of
    unique customers of the KPI: customers with more than 20 orders are
    not in the chart at all. *)
Theorem order_distribution_total (view : DataFrame) :
  fold_right Nat.add 0%nat (map snd (order_distribution view))
  = length (filter (fun row => (snd row <=? 20)%nat) (customer_orders view)) /\
  (fold_right Nat.add 0%nat (map snd (order_distribution view))
   <= total_customers view)%nat.
Proof.
  assert (E : fold_right Nat.add 0%nat (map snd (order_distribution view))
              = length (filter (fun row => (snd row <=? 20)%nat)
                               (customer_orders view))).
  { unfold order_distribution.
    set (col := map snd (customer_orders view)).
    set (p := fun row : nat * nat => (fst row <=? 20)%nat).
    assert (P : Permutation
                  (filter p (sort_index Nat.leb (value_counts col)))
                  (filter p (map (fun v => (v, count_of v col))
                                 (unique Nat.eqb col)))).
    { apply filter_perm. eapply Permutation_trans;
        [apply sort_index_perm | apply value_counts_perm]. }
    rewrite (natsum_perm _ _ (Permutation_map snd P)).
    rewrite filter_map_comm, map_map. cbn [snd fst].
    rewrite count_of_sum
      by (apply NoDup_filter, (unique_NoDup Nat.eqb Nat.eqb_eq)).
    transitivity (length (filter (fun x => (x <=? 20)%nat) col)).
    - f_equal. apply filter_ext_in. intros x Hx. subst p. cbn [fst].
      apply eq_true_iff_eq. rewrite existsb_exists, Nat.leb_le. split.
      + intros (y & Hy & Ey). apply Nat.eqb_eq in Ey. subst y.
        apply filter_In in Hy as [_ Hy]. now apply Nat.leb_le.
      + intros L. exists x. split; [|apply Nat.eqb_refl].
        apply filter_In. split; [|now apply Nat.leb_le].
        now apply (proj2 (unique_In Nat.eqb Nat.eqb_eq _ _)).
    - subst col. rewrite filter_map_comm, length_map. reflexivity. }
  split; [exact E|]. rewrite E.
  eapply Nat.le_trans; [apply filter_length_le|].
  unfold customer_orders, by_CustomerID.
  now rewrite (agg_groupby_length Z.eqb Z.leb).
Qed.

(** ** What the rows of the tables hold *)

(** Each top-N table keeps the largest groups: together with the groups
    it leaves out it is a rearrangement of all the groups, and no group
    left out has a larger measure than a group kept. *)
Theorem top_n_keeps_largest (ties : TieOrder) (view : DataFrame) :
  (exists rest,
      Permutation (country_stats ties view ++ rest) (country_table view) /\
      forall x y, In x (country_stats ties view) -> In y rest ->
                  (Revenue y <= Revenue x)%Q) /\
  (exists rest,
      Permutation (top_products_qty ties view ++ rest)
                  (agg (fun g => int64_sum (map (fun r : Row => Quantity r) g))
                       (by_Description view)) /\
      forall x y, In x (top_products_qty ties view) -> In y rest ->
                  (snd y <= snd x)%Z) /\
  (exists rest,
      Permutation (top_products_rev ties view ++ rest)
                  (agg (fun g => Qsum (map TotalPrice g))
                       (by_Description view)) /\
      forall x y, In x (top_products_rev ties view) -> In y rest ->
                  (snd y <= snd x)%Q).
Proof.
  split; [|split].
  - destruct (head_sort_values_desc Revenue Qle_bool (by_key ties) 10
                                    (country_table view))
      as (_ & _ & rest & P & C).
    exists rest. split; [exact P|].
    intros x y Hx Hy. apply Qle_bool_iff. exact (C x y Hx Hy).
  - destruct (head_sort_values_desc
                snd Z.leb (by_key ties) 10
                (agg (fun g => int64_sum (map (fun r : Row => Quantity r) g))
                     (by_Description view)))
      as (_ & _ & rest & P & C).
    exists rest. split; [exact P|].
    intros x y Hx Hy. apply Z.leb_le. exact (C x y Hx Hy).
  - destruct (head_sort_values_desc
                snd Qle_bool (by_key ties) 10
                (agg (fun g => Qsum (map TotalPrice g)) (by_Description view)))
      as (_ & _ & rest & P & C).
    exists rest. split; [exact P|].
    intros x y Hx Hy. apply Qle_bool_iff. exact (C x y Hx Hy).
Qed.

(** A month has a row in the monthly tables, and an hour in the hourly
    table, exactly when some row of the view falls in it.  The monthly
    revenue row holds the sum of TotalPrice over the rows of the view in
    that month and over no other; the monthly and hourly order rows hold
    the number of distinct InvoiceNo among the rows of that month or
    hour, however many rows an invoice has. *)
Theorem time_tables_rows (view : DataFrame) :
  (forall m v,
      In (m, v) (monthly_revenue view) <->
      (exists r : Row, In r view /\ YearMonth r = m) /\
      v = Qsum (map TotalPrice
                    (filter (fun r : Row => String.eqb m (YearMonth r)) view))) /\
  (forall m n,
      In (m, n) (monthly_orders view) <->
      (exists r : Row, In r view /\ YearMonth r = m) /\
      distinct_invoices view (fun r : Row => YearMonth r = m) n) /\
  (forall h n,
      In (h, n) (hourly view) <->
      (exists r : Row, In r view /\ Hour r = h) /\
      distinct_invoices view (fun r : Row => Hour r = h) n).
Proof.
  split; [|split]; intros k v.
  - unfold monthly_revenue, by_YearMonth.
    rewrite (agg_groupby_In String.eqb String.leb). cbn [has_key].
    split; intros [(r & Hr & E) ->]; (split; [exists r; split; auto|auto]);
      congruence.
  - rewrite (distinct_invoices_orders_of
               view _ (fun r : Row => String.eqb k (YearMonth r)) v)
      by (intros r; rewrite String.eqb_eq; split; congruence).
    unfold monthly_orders, by_YearMonth.
    rewrite (agg_groupby_In String.eqb String.leb). cbn [has_key].
    split; intros [(r & Hr & E) ->]; (split; [exists r; split; auto|auto]);
      congruence.
  - rewrite (distinct_invoices_orders_of
               view _ (fun r : Row => Z.eqb k (Hour r)) v)
      by (intros r; rewrite Z.eqb_eq; split; congruence).
    unfold hourly, by_Hour.
    rewrite (agg_groupby_In Z.eqb Z.leb). cbn [has_key].
    split; intros [(r & Hr & E) ->]; (split; [exists r; split; auto|auto]);
      congruence.
Qed.

(** January has three rows in two invoices: two orders, not three. *)
Lemma time_tables_rows_witness :
  monthly_orders invoices_view
  = [("2011-01"%string, 2%nat); ("2011-02"%string, 2%nat)] /\
  hourly invoices_view = [(12%Z, 4%nat)] /\
  distinct_invoices invoices_view
                    (fun r : Row => YearMonth r = "2011-01"%string) 2.
Proof.
  split; [reflexivity|]. split; [reflexivity|].
  apply (proj1 (proj1 (proj2 (time_tables_rows invoices_view))
                      "2011-01"%string 2%nat)).
  left. reflexivity.
Defined.

(** Whatever the sort does with equal revenues, every row of the country
    table, and so of the country share, is a country of the view with
    the sum of TotalPrice over that country's rows and the number of
    distinct InvoiceNo among them. *)
Theorem country_stats_rows (ties : TieOrder) (view : DataFrame)
        (row : string * (Q * nat)) :
  In row (country_stats ties view) \/ In row (top5 ties view) ->
  (exists r : Row, In r view /\ Country r = fst row) /\
  Revenue row
  = Qsum (map TotalPrice
              (filter (fun r : Row => String.eqb (fst row) (Country r)) view)) /\
  distinct_invoices view (fun r : Row => Country r = fst row) (Orders row).
Proof.
  intros H.
  assert (H' : In row (country_table view)).
  { assert (S : In row (country_stats ties view))
      by (destruct H as [H|H]; [exact H | eapply firstn_In, H]).
    unfold country_stats, head in S. apply firstn_In in S.
    eapply Permutation_in in S; [|apply sort_values_desc_perm]. exact S. }
  destruct row as [c [rev n]]. unfold country_table, by_Country in H'.
  apply (agg_groupby_In String.eqb String.leb) in H' as [(r & Hr & E) V].
  cbn [has_key] in V. injection V as -> ->. injection E as E.
  split; [eauto|]. split; [reflexivity|].
  cbn [fst Orders snd].
  apply (distinct_invoices_orders_of
           view _ (fun r : Row => String.eqb c (Country r))).
  - intros r'. rewrite String.eqb_eq. split; congruence.
  - reflexivity.
Qed.

(** UK has three rows in two invoices: Orders is 2. *)
Lemma country_stats_rows_witness :
  (exists r : Row, In r invoices_view /\ Country r = "UK"%string) /\
  Revenue ("UK"%string, (3, 2%nat))
  = Qsum (map TotalPrice
              (filter (fun r : Row => String.eqb "UK" (Country r))
                      invoices_view)) /\
  distinct_invoices invoices_view (fun r : Row => Country r = "UK"%string) 2.
Proof.
  apply (country_stats_rows key_order invoices_view ("UK"%string, (3, 2%nat))).
  left. left. reflexivity.
Defined.
